(** * EV charging pipeline: a shallow embedding of [ev_charging_pipeline.py]
    and of the KPI query of [dashboard.py].

    Conventions of the embedding.
    - Integers of Python / SQLite are [Z].
    - The REAL columns of the store and SQLite's [AVG] are idealised as
      exact rationals [Q]; the float64 arithmetic of pandas that computes
      [duration_hours] ([total_seconds() / 3600.0]) is rounded as binary64
      ([f64]), its values being kept as the rationals they denote.
    - A pandas [datetime64[ns]] value is its [Z] count of nanoseconds since
      1970-01-01T00:00; a Python [datetime.date] is the triple (y, m, d).
    - A SQLite table with an INTEGER PRIMARY KEY is a [gmap] from the key to
      the remaining columns. *)

From Stdlib Require Import ZArith QArith Qabs String Ascii Lia.
From stdpp Require Import base gmap sorting strings list.

Open Scope Z_scope.

(** ** Proleptic Gregorian calendar (the date arithmetic of Python's
    [datetime] and of pandas' [Timestamp]) *)

Definition is_leap (y : Z) : bool :=
  ((y mod 4 =? 0) && negb (y mod 100 =? 0)) || (y mod 400 =? 0).

Definition days_in_month (y m : Z) : Z :=
  if m =? 2 then (if is_leap y then 29 else 28)
  else if (m =? 4) || (m =? 6) || (m =? 9) || (m =? 11) then 30
  else 31.

Definition valid_date (y m d : Z) : bool :=
  (1 <=? m) && (m <=? 12) && (1 <=? d) && (d <=? days_in_month y m).

(** Day of a 400-year era (starting on March 1st) of the date whose
    March-based year within the era is [yoe]. *)
Definition day_of_era (yoe m d : Z) : Z :=
  let mp := (m + 9) mod 12 in
  yoe * 365 + yoe / 4 - yoe / 100 + (153 * mp + 2) / 5 + d - 1.

(** Days since 1970-01-01 of the date (y, m, d). *)
Definition days_from_civil (y m d : Z) : Z :=
  let y' := if m <=? 2 then y - 1 else y in
  let era := y' / 400 in
  era * 146097 + day_of_era (y' - era * 400) m d - 719468.

(** Inverse of [day_of_era]: (year of era, month, day). *)
Definition civil_of_day_of_era (doe : Z) : Z * Z * Z :=
  let yoe := (doe - doe / 1460 + doe / 36524 - doe / 146096) / 365 in
  let doy := doe - (365 * yoe + yoe / 4 - yoe / 100) in
  let mp := (5 * doy + 2) / 153 in
  let d := doy - (153 * mp + 2) / 5 + 1 in
  let m := if mp <? 10 then mp + 3 else mp - 9 in
  (yoe, m, d).

(** The date (y, m, d) of the day number [z] (days since 1970-01-01). *)
Definition civil_from_days (z : Z) : Z * Z * Z :=
  let z' := z + 719468 in
  let era := z' / 146097 in
  let '(yoe, m, d) := civil_of_day_of_era (z' - era * 146097) in
  (yoe + era * 400 + (if m <=? 2 then 1 else 0), m, d).

(** [date.weekday()] of Python: Monday is 0; 1970-01-01 was a Thursday. *)
Definition weekday (z : Z) : Z := (z + 3) mod 7.

Definition weekday_name (w : Z) : string :=
  match w with
  | 0 => "Monday" | 1 => "Tuesday" | 2 => "Wednesday" | 3 => "Thursday"
  | 4 => "Friday" | 5 => "Saturday" | _ => "Sunday"
  end.

Definition ns_per_second : Z := 1000000000.
Definition ns_per_day : Z := 86400 * ns_per_second.

(** Bounds of pandas' [datetime64[ns]] ([Timestamp.min], [Timestamp.max]). *)
Definition ns_min : Z := - 9223372036854775807.
Definition ns_max : Z := 9223372036854775807.

(** ** Binary64 arithmetic (IEEE 754 double precision, round to nearest,
    ties to even)

    Values are the rationals they denote.  The rounding below covers the
    normal range, where every value computed here lies (no subnormal and no
    overflow arises from [datetime64[ns]] differences). *)

(** [2^k] as a rational, for any integer [k]. *)
Definition pow2 (k : Z) : Q :=
  if 0 <=? k then inject_Z (2 ^ k) else (/ inject_Z (2 ^ (- k)))%Q.

(** [n / d] rounded to an integer, to nearest, ties to even ([d > 0]). *)
Definition round_even (n d : Z) : Z :=
  let q := n / d in
  let r := n mod d in
  match Z.compare (2 * r) d with
  | Lt => q
  | Gt => q + 1
  | Eq => if Z.even q then q else q + 1
  end.

(** The binary64 number nearest to [a / b] ([a, b > 0]): [m * 2^e] with a
    53-bit significand [m], [e = floor(log2(a / b)) - 52].  With
    [la = floor(log2 a)], [lb = floor(log2 b)], [floor(log2(a / b))] is
    [la - lb - 1] or [la - lb], and [e + lb + 60 = la + t]; the quotient
    [a 2^(lb+60) / (b 2^(la+t))] is [a / (b 2^e)], in [2^52, 2^53). *)
Definition round_pos (a b : Z) : Q :=
  let la := Z.log2 a in
  let lb := Z.log2 b in
  let t := if a * 2 ^ lb <? b * 2 ^ la then 7 else 8 in
  (inject_Z (round_even (a * 2 ^ (lb + 60)) (b * 2 ^ (la + t)))
   * pow2 (la + t - lb - 60))%Q.

(** The binary64 number nearest to [x]: the result of a float64 operation
    whose exact result is [x]. *)
Definition f64 (x : Q) : Q :=
  let x' := Qred x in
  match Qnum x' with
  | Z0 => 0%Q
  | Zpos a => round_pos (Zpos a) (Zpos (Qden x'))
  | Zneg a => (- round_pos (Zpos a) (Zpos (Qden x')))%Q
  end.

(** ** Decimal text *)

Definition digit_char (n : Z) : ascii := ascii_of_nat (48 + Z.to_nat n).

(** The [w] low decimal digits of [n], zero padded, most significant first
    ([%04d], [%02d] and the [%Y], [%m], [%d], [%H], [%M] directives). *)
Fixpoint pad (w : nat) (n : Z) : string :=
  match w with
  | O => EmptyString
  | S w' => String.append (pad w' (n / 10)) (String (digit_char (n mod 10)) EmptyString)
  end.

Definition digit_val (c : ascii) : option Z :=
  let k := Z.of_nat (nat_of_ascii c) - 48 in
  if (0 <=? k) && (k <=? 9) then Some k else None.

(** [int(s)] on a string of decimal digits. *)
Fixpoint parse_digits (acc : Z) (s : string) : option Z :=
  match s with
  | EmptyString => Some acc
  | String c s' =>
      match digit_val c with
      | Some k => parse_digits (acc * 10 + k) s'
      | None => None
      end
  end.

Definition parse_int (s : string) : option Z :=
  match s with
  | EmptyString => None
  | _ => parse_digits 0 s
  end.

(** [str(n)] for a non-negative integer. *)
Fixpoint dec_fuel (fuel : nat) (n : Z) (acc : string) : string :=
  match fuel with
  | O => acc
  | S f =>
      let acc' := String (digit_char (n mod 10)) acc in
      if n <? 10 then acc' else dec_fuel f (n / 10) acc'
  end.

Definition str_of_Z (n : Z) : string :=
  if n <? 0 then String "-" (dec_fuel 64 (- n) EmptyString)
  else dec_fuel 64 n EmptyString.

(** ** Timestamps: [pd.read_csv(..., parse_dates=[...])] on the dataset's
    ISO-8601 minute-precision timestamps [YYYY-MM-DDTHH:MM] (section 6 of
    the spec).  A value is [datetime64[ns]]: nanoseconds since the epoch. *)

Record ts_fields := mk_fields {
  f_year : Z; f_month : Z; f_day : Z; f_hour : Z; f_minute : Z }.

Definition digits2 (a b : ascii) : option Z :=
  ka ← digit_val a; kb ← digit_val b; Some (ka * 10 + kb).

Definition digits4 (a b c d : ascii) : option Z :=
  hi ← digits2 a b; lo ← digits2 c d; Some (hi * 100 + lo).

(** The lexical part of the parse. *)
Definition parse_fields (s : string) : option ts_fields :=
  match list_ascii_of_string s with
  | [y1; y2; y3; y4; "-"; m1; m2; "-"; d1; d2; "T"; h1; h2; ":"; n1; n2]%char =>
      y ← digits4 y1 y2 y3 y4; m ← digits2 m1 m2; d ← digits2 d1 d2;
      h ← digits2 h1 h2; n ← digits2 n1 n2;
      Some (mk_fields y m d h n)
  | _ => None
  end.

Definition ns_of_fields (f : ts_fields) : Z :=
  (days_from_civil (f_year f) (f_month f) (f_day f) * 86400
   + f_hour f * 3600 + f_minute f * 60) * ns_per_second.

(** The timestamp of the fields: a valid calendar date and time of day,
    within the [datetime64[ns]] range. *)
Definition ts_of_fields (f : ts_fields) : option Z :=
  if valid_date (f_year f) (f_month f) (f_day f)
     && (f_hour f <? 24) && (f_minute f <? 60) then
    let ns := ns_of_fields f in
    if (ns_min <=? ns) && (ns <=? ns_max) then Some ns else None
  else None.

(** A cell in the dataset's format that is a valid timestamp. *)
Definition parse_ts (s : string) : option Z :=
  f ← parse_fields s; ts_of_fields f.

(** [Series.dt.total_seconds()] of a [timedelta64[ns]] value (pandas 2:
    the int64 count converted to float64, then divided by [1e9]). *)
Definition total_seconds (ns : Z) : Q :=
  f64 (f64 (inject_Z ns) / inject_Z ns_per_second).

(** [Timestamp.strftime("%Y%m%d")]. *)
Definition strftime_ymd (t : Z) : string :=
  let '(y, m, d) := civil_from_days (t / ns_per_day) in
  String.append (pad 4 y) (String.append (pad 2 m) (pad 2 d)).

(** [Timestamp.date()]. *)
Definition date_of (t : Z) : Z * Z * Z := civil_from_days (t / ns_per_day).

(** ** [process_data] *)

(** One CSV line as [pd.read_csv] reads it before the date columns are
    converted. *)
Record raw_row := mk_raw {
  r_session_id : Z; r_station_id : Z; r_start_time : string;
  r_end_time : string; r_energy_kwh : Q; r_success : Z }.

(** One row of the cleaned DataFrame. *)
Record row := mk_row {
  session_id : Z; station_id : Z; start_time : Z; end_time : Z;
  energy_kwh : Q; success : Z; duration_hours : Q; date_key : Z }.

(** Python exceptions, and [Unmodelled]: not an exception of the program
    but the result on an input whose outcome the embedding leaves open (see
    [process_data]). *)
Inductive exn :=
  TypeError | ValueError | AttributeError | OverflowError | IntegrityError
| Unmodelled.

Inductive outcome (A : Type) := Ok (a : A) | Raise (e : exn).
Arguments Ok {A} a.
Arguments Raise {A} e.

Fixpoint assemble (rows : list raw_row) (starts ends keys : list Z) : list row :=
  match rows, starts, ends, keys with
  | r :: rows', s :: starts', e :: ends', k :: keys' =>
      mk_row (r_session_id r) (r_station_id r) s e (r_energy_kwh r) (r_success r)
        (f64 (total_seconds (e - s) / 3600)) k
      :: assemble rows' starts' ends' keys'
  | _, _, _, _ => []
  end.

(** How [read_csv] reads a cell of a [parse_dates] column: empty (NaN,
    converted to NaT), text in the dataset's format [YYYY-MM-DDTHH:MM]
    (a valid timestamp or not), or other text. *)
Inductive cell := Missing | Minute (f : ts_fields) | Other.

Definition cell_of (s : string) : cell :=
  match s with
  | EmptyString => Missing
  | _ => match parse_fields s with Some f => Minute f | None => Other end
  end.

Definition cell_ts (c : cell) : option Z :=
  match c with Minute f => ts_of_fields f | _ => None end.

(** The column [parse_dates] makes of the cells of a non-empty file. *)
Inductive column :=
| Text                             (* dtype object: the strings as read *)
| Datetime (ts : list (option Z))  (* datetime64[ns]; [None] is NaT *)
| Unsettled.                       (* left open by the embedding *)

(** A cell in the dataset's format that is not a valid timestamp (a bad
    date, hour or minute, or a date outside the [datetime64[ns]] range)
    makes the conversion fail, in every pandas version: the column keeps
    dtype object.  Otherwise a column of valid cells and empty cells is
    converted, NaN giving NaT.  How other text is parsed depends on the
    pandas version (pandas 2 infers one format from the first cell), and
    so does a column with no timestamp at all: those columns are left
    open. *)
Definition convert_column (cells : list string) : column :=
  let cs := map cell_of cells in
  if existsb (λ c, match c with
                   | Minute f => match ts_of_fields f with None => true | Some _ => false end
                   | _ => false end) cs then Text
  else if existsb (λ c, match c with Other => true | _ => false end) cs then Unsettled
  else if forallb (λ c, match c with Missing => true | _ => false end) cs then Unsettled
  else Datetime (map cell_ts cs).

(** [process_data].  A file with a header only gives empty object columns:
    the subtraction succeeds and [.dt] raises [AttributeError].  A column
    left as text makes [df["end_time"] - df["start_time"]] raise
    [TypeError].  A NaT start gives a NaN [strftime], on which
    [.astype(int)] raises [ValueError]; a NaT end gives a NaN
    [duration_hours], a value the rows here do not carry ([Unmodelled]). *)
Definition process_data (rows : list raw_row) : outcome (list row) :=
  match rows with
  | [] => Raise AttributeError
  | _ :: _ =>
      match convert_column (map r_start_time rows), convert_column (map r_end_time rows) with
      | Text, _ | _, Text => Raise TypeError
      | Datetime ss, Datetime es =>
          match mapM (λ t, t) ss with
          | None => Raise ValueError
          | Some starts =>
              match mapM (λ t, t) es with
              | None => Raise Unmodelled
              | Some ends =>
                  match mapM parse_int (map strftime_ymd starts) with
                  | Some keys => Ok (assemble rows starts ends keys)
                  | None => Raise ValueError
                  end
              end
          end
      | _, _ => Raise Unmodelled
      end
  end.

(** ** The star-schema store ([create_database]) *)

Record station_dim := mk_station { station_name : string; location : string }.

Record time_dim := mk_time {
  date : string; day_of_week : string; month : Z; year : Z }.

(** A row of [fact_charging] without its key [session_id]. *)
Record fact := mk_fact {
  fact_station_id : Z; time_id : Z; fact_energy_kwh : Q;
  fact_duration_hours : Q; fact_success : Z }.

(** The three tables, each keyed by its INTEGER PRIMARY KEY. *)
Record tables := mk_tables {
  dim_station : gmap Z station_dim;
  dim_time : gmap Z time_dim;
  fact_charging : gmap Z fact }.

(** An open connection: the database file and SQLite's [foreign_keys]
    pragma, which decides whether the FOREIGN KEY clauses are enforced. *)
Record conn := mk_conn { db : tables; foreign_keys : bool }.

(** [create_database]: [sqlite3.connect] opens the file with [foreign_keys]
    off (SQLite's default, and the code issues no PRAGMA); the three
    [CREATE TABLE IF NOT EXISTS] leave existing tables as they are (a new
    file starts with three empty tables). *)
Definition create_database (file : tables) : conn := mk_conn file false.

Definition empty_tables : tables := mk_tables ∅ ∅ ∅.

(** Comparison of rows on their first column. *)
Definition fst_le {K V} (le : K -> K -> Prop) (p q : K * V) : Prop := le p.1 q.1.

Global Instance fst_le_dec {K V} (le : K -> K -> Prop) `{RelDecision K K le} :
  RelDecision (@fst_le K V le).
Proof. intros p q. unfold fst_le. apply _. Defined.

(** Binding an integer parameter: [sqlite3] raises [OverflowError] on a
    Python int outside SQLite's signed 64-bit INTEGER range. *)
Definition int64_ok (n : Z) : bool := (- 2 ^ 63 <=? n) && (n <? 2 ^ 63).

(** [INSERT OR IGNORE] on a table keyed by [k]. *)
Definition insert_or_ignore {V} (k : Z) (v : V) (m : gmap Z V) : gmap Z V :=
  match m !! k with Some _ => m | None => <[k := v]> m end.

(** ** [populate_dimensions] *)

(** [Series.unique()] / [drop_duplicates()]: first occurrences, in order. *)
Definition unique {A} `{EqDecision A} (l : list A) : list A :=
  reverse (foldl (λ acc x, if decide (x ∈ acc) then acc else x :: acc) [] l).

(** ISO date [date.isoformat()]. *)
Definition iso_date (y m d : Z) : string :=
  String.append (pad 4 y) (String.append "-" (String.append (pad 2 m)
    (String.append "-" (pad 2 d)))).

Definition station_row (sid : Z) : station_dim :=
  mk_station (String.append "Station " (str_of_Z sid))
             (String.append "Location " (str_of_Z sid)).

Definition time_row (start : Z) : time_dim :=
  let '(y, m, d) := date_of start in
  mk_time (iso_date y m d) (weekday_name (weekday (start / ns_per_day))) m y.

(** [sort_values("date_key")]; pandas' default sort is not stable, but the
    rows sharing a date key carry start times of one calendar date, which
    give the same [dim_time] row. *)
Definition sort_by_date_key (l : list (Z * Z)) : list (Z * Z) :=
  merge_sort (fst_le Z.le) l.

(** A [for] loop of [INSERT OR IGNORE] statements, the statement for [a]
    binding the integers [params a]: the loop stops at the first binding
    that raises; the rows inserted before it stay in the connection's
    (uncommitted) tables. *)
Fixpoint insert_each {A V} (params : A -> list Z) (key : A -> Z) (val : A -> V)
    (m : gmap Z V) (l : list A) : gmap Z V * option exn :=
  match l with
  | [] => (m, None)
  | a :: l' =>
      if forallb int64_ok (params a)
      then insert_each params key val (insert_or_ignore (key a) (val a) m) l'
      else (m, Some OverflowError)
  end.

(** The integers bound by the [dim_station] statement of [sid]. *)
Definition station_params (sid : Z) : list Z := [sid].

(** The integers bound by the [dim_time] statement of a (date key, start
    time) pair: the key, the month and the year. *)
Definition date_params (p : Z * Z) : list Z :=
  [p.1; month (time_row p.2); year (time_row p.2)].

(** [populate_dimensions]: the connection after the statements run, and
    the exception that ends the call, if any. *)
Definition populate_dimensions (c : conn) (df : list row) : conn * option exn :=
  let t := db c in
  let stations := unique (map station_id df) in
  let '(ds, err) := insert_each station_params (λ sid, sid) station_row (dim_station t) stations in
  match err with
  | Some e => (mk_conn (mk_tables ds (dim_time t) (fact_charging t)) (foreign_keys c), Some e)
  | None =>
      let dates := sort_by_date_key (unique (map (λ r, (date_key r, start_time r)) df)) in
      let '(dt, err') := insert_each date_params fst (λ p, time_row p.2) (dim_time t) dates in
      (mk_conn (mk_tables ds dt (fact_charging t)) (foreign_keys c), err')
  end.

(** ** [populate_fact] *)

Definition fact_of (r : row) : fact :=
  mk_fact (station_id r) (date_key r) (energy_kwh r) (duration_hours r) (success r).

(** The integers bound by the [fact_charging] statement of a record. *)
Definition fact_params (r : row) : list Z :=
  [session_id r; station_id r; date_key r; success r].

(** [INSERT OR REPLACE INTO fact_charging]: the parameters are bound first;
    then the row with the same [session_id], if any, is deleted and the new
    row inserted.  With [foreign_keys] on, a parent key missing from a
    dimension table makes the statement fail. *)
Definition insert_fact (c : conn) (r : row) : outcome conn :=
  let t := db c in
  if negb (forallb int64_ok (fact_params r)) then Raise OverflowError
  else if foreign_keys c
     && negb (bool_decide (is_Some (dim_station t !! station_id r))
              && bool_decide (is_Some (dim_time t !! date_key r)))
  then Raise IntegrityError
  else Ok (mk_conn (mk_tables (dim_station t) (dim_time t)
                      (<[session_id r := fact_of r]> (fact_charging t)))
                   (foreign_keys c)).

Fixpoint populate_fact (c : conn) (df : list row) : outcome conn :=
  match df with
  | [] => Ok c
  | r :: df' =>
      match insert_fact c r with
      | Ok c' => populate_fact c' df'
      | Raise e => Raise e
      end
  end.

(** ** Grouped aggregation ([GROUP BY ... ORDER BY ...] with [COUNT],
    [SUM] and [AVG]) *)

Record agg := mk_agg {
  n_rows : Z; sum_success : Z; sum_energy : Q; sum_duration : Q }.

Definition agg0 : agg := mk_agg 0 0 0 0.

Definition agg_step (a : agg) (f : fact) : agg :=
  mk_agg (n_rows a + 1) (sum_success a + fact_success f)
         (sum_energy a + fact_energy_kwh f) (sum_duration a + fact_duration_hours f).

Definition agg_of (fs : list fact) : agg := foldl agg_step agg0 fs.

(** The groups of the joined rows, each row tagged with its group key. *)
Definition group_by {K} `{Countable K} (l : list (K * fact)) : gmap K agg :=
  foldl (λ m p, <[p.1 := agg_step (default agg0 (m !! p.1)) p.2]> m) ∅ l.

Definition order_by {K} `{Countable K} (le : K -> K -> Prop) `{RelDecision K K le}
    (g : gmap K agg) : list (K * agg) :=
  merge_sort (fst_le le) (map_to_list g).

(** The rows of [fact_charging], in rowid order. *)
Definition fact_rows (t : tables) : list fact := (map_to_list (fact_charging t)).*2.

(** ** [compute_kpis] (and the dashboard's [load_kpis]) *)

Record kpi := mk_kpi {
  kpi_station_id : Z; total_sessions : Z; success_rate : Q;
  avg_energy_kwh : Q; avg_duration_hours : Q }.

Definition kpi_of (p : Z * agg) : kpi :=
  let a := p.2 in
  mk_kpi p.1 (n_rows a) (inject_Z (sum_success a) * 1 / inject_Z (n_rows a))
         (sum_energy a / inject_Z (n_rows a)) (sum_duration a / inject_Z (n_rows a)).

Definition kpi_rows (l : list (Z * fact)) : list kpi :=
  map kpi_of (order_by Z.le (group_by l)).

(** [SELECT station_id, COUNT( * ), SUM(success) * 1.0 / COUNT( * ),
    AVG(energy_kwh), AVG(duration_hours) FROM fact_charging
    GROUP BY station_id ORDER BY station_id]. *)
Definition compute_kpis (c : conn) : list kpi :=
  kpi_rows (map (λ f, (fact_station_id f, f)) (fact_rows (db c))).

(** [FROM fact_charging f JOIN dim_station s ON f.station_id = s.station_id],
    each joined row tagged with [s.station_id]. *)
Definition join_station (t : tables) : list (Z * fact) :=
  f ← fact_rows t;
  s ← map_to_list (dim_station t);
  if decide (fact_station_id f = s.1) then [(s.1, f)] else [].

(** [load_kpis] of [dashboard.py]: the same aggregates over the join,
    grouped and ordered by [s.station_id]; [COUNT(f.session_id)] counts
    every joined row, the primary key being never NULL. *)
Definition load_kpis (t : tables) : list kpi := kpi_rows (join_station t).

(** ** [compute_time_series] *)

(** SQLite's BINARY collation on TEXT: byte-wise lexicographic order. *)
Definition text_le (s1 s2 : string) : Prop := String.leb s1 s2 = true.

Global Instance text_le_dec : RelDecision text_le.
Proof. intros s1 s2. unfold text_le. apply _. Defined.

Record daily := mk_daily { daily_date : string; avg_energy : Q; avg_duration : Q }.

Definition daily_of (p : string * agg) : daily :=
  let a := p.2 in
  mk_daily p.1 (sum_energy a / inject_Z (n_rows a)) (sum_duration a / inject_Z (n_rows a)).

(** [FROM fact_charging f JOIN dim_time t ON f.time_id = t.time_id], each
    joined row tagged with [t.date]. *)
Definition join_time (t : tables) : list (string * fact) :=
  f ← fact_rows t;
  tm ← map_to_list (dim_time t);
  if decide (time_id f = tm.1) then [(date tm.2, f)] else [].

(** [SELECT t.date, AVG(f.energy_kwh), AVG(f.duration_hours) ...
    GROUP BY t.date ORDER BY t.date]; [pd.to_datetime] then converts the
    date column in place, keeping the row order. *)
Definition compute_time_series (c : conn) : list daily :=
  map daily_of (order_by text_le (group_by (join_time (db c)))).

(** ** [generate_synthetic_data] *)

(** The call sites of the random module in the loop body, in program
    order. *)
Inductive draw :=
  | DrawStation | DrawDay | DrawHour | DrawMinute | DrawDuration
  | DrawIntensity | DrawSuccess.

(** The process state the function touches: the global generator of the
    [random] module and the file system. *)
Record world (S : Type) := mk_world { rng : S; files : gmap string string }.
Arguments mk_world {S} rng files.
Arguments rng {S} w.
Arguments files {S} w.

(** [datetime.isoformat(sep="T", timespec="minutes")] of the instant [mins]
    minutes after the epoch. *)
Definition isoformat_minutes (mins : Z) : string :=
  let '(y, m, d) := civil_from_days (mins / 1440) in
  let hm := mins mod 1440 in
  String.append (iso_date y m d) (String.append "T"
    (String.append (pad 2 (hm / 60)) (String.append ":" (pad 2 (hm mod 60))))).

(** [csv.writer(...).writerow]: fields joined by commas, terminated by
    the default [\r\n] (no field here needs quoting). *)
Fixpoint join_fields (fields : list string) : string :=
  match fields with
  | [] => EmptyString
  | [x] => x
  | x :: rest => String.append x (String "," (join_fields rest))
  end.

Definition crlf : string := String (ascii_of_nat 13) (String (ascii_of_nat 10) EmptyString).

Definition csv_line (fields : list string) : string :=
  String.append (join_fields fields) crlf.

Section Generator.

(** Python's [random] module, left abstract: its state [St], [seed],
    [_randbelow] (used by [randint]) and [random()], whose floats are of
    type [F]. *)
Context {St F : Type}.
Variable rng_seed : Z -> St.
Variable randbelow : Z -> St -> Z * St.
Variable random : St -> F * St.
(** [round(uniform(0.5, 0.8) * (duration_minutes / 60.0) * 10, 2)] as the
    CSV writer prints it, from the float drawn by [uniform]'s single call
    of [random()] and [duration_minutes]. *)
Variable energy_text : F -> Z -> string.
(** [random() < 0.9]. *)
Variable lt_09 : F -> bool.

(** State of the loop: the generator, the log of draws and the text
    written to the file so far. *)
Record gstate := mk_gstate { g_rng : St; g_log : list draw; g_out : string }.

Definition gen (A : Type) : Type := gstate -> outcome A * gstate.

Definition gret {A} (a : A) : gen A := λ st, (Ok a, st).

Definition gbind {A B} (m : gen A) (k : A -> gen B) : gen B :=
  λ st, match m st with
        | (Ok a, st') => k a st'
        | (Raise e, st') => (Raise e, st')
        end.

Local Notation "x <- m ;; k" := (gbind m (λ x, k))
  (at level 100, m at next level, right associativity).

(** [randint(a, b)] = [a + _randbelow(b - a + 1)]; an empty range raises
    [ValueError]. *)
Definition randint (site : draw) (a b : Z) : gen Z :=
  λ st, if b <? a then (Raise ValueError, st)
        else let '(k, s') := randbelow (b - a + 1) (g_rng st) in
             (Ok (a + k), mk_gstate s' (g_log st ++ [site]) (g_out st)).

Definition random_float (site : draw) : gen F :=
  λ st, let '(x, s') := random (g_rng st) in
        (Ok x, mk_gstate s' (g_log st ++ [site]) (g_out st)).

Definition writerow (fields : list string) : gen unit :=
  λ st, (Ok tt, mk_gstate (g_rng st) (g_log st) (String.append (g_out st) (csv_line fields))).

(** [datetime(2025, 1, 1)] in minutes since the epoch. *)
Definition start_date : Z := days_from_civil 2025 1 1 * 1440.

(** One iteration of the loop body. *)
Definition gen_session (n_stations session_id : Z) : gen unit :=
  station_id <- randint DrawStation 1 n_stations ;;
  start_offset_days <- randint DrawDay 0 29 ;;
  start_offset_hours <- randint DrawHour 0 23 ;;
  start_offset_minutes <- randint DrawMinute 0 59 ;;
  let start_dt := start_date + start_offset_days * 1440
                  + start_offset_hours * 60 + start_offset_minutes in
  duration_minutes <- randint DrawDuration 15 (4 * 60) ;;
  let end_dt := start_dt + duration_minutes in
  u <- random_float DrawIntensity ;;
  let energy := energy_text u duration_minutes in
  r <- random_float DrawSuccess ;;
  let success := if lt_09 r then 1 else 0 in
  writerow [str_of_Z session_id; str_of_Z station_id;
            isoformat_minutes start_dt; isoformat_minutes end_dt;
            energy; str_of_Z success].

(** [for session_id in range(session_id, session_id + k)]. *)
Fixpoint gen_sessions (n_stations : Z) (k : nat) (session_id : Z) : gen unit :=
  match k with
  | O => gret tt
  | S k' => _ <- gen_session n_stations session_id ;;
            gen_sessions n_stations k' (session_id + 1)
  end.

Definition header : list string :=
  ["session_id"; "station_id"; "start_time"; "end_time"; "energy_kwh"; "success"].

(** [random.seed(seed)], then [open(csv_path, "w")] truncates the file;
    whatever was written when the loop ends or raises is in the file
    once the [with] block closes it.  Returns the outcome, the new state
    and the log of draws. *)
Definition generate_synthetic_data (csv_path : string) (n_sessions n_stations seed : Z)
    (w : world St) : outcome unit * world St * list draw :=
  let run := (_ <- writerow header ;; gen_sessions n_stations (Z.to_nat n_sessions) 1) in
  let '(res, st) := run (mk_gstate (rng_seed seed) [] EmptyString) in
  (res, mk_world (g_rng st) (<[csv_path := g_out st]> (files w)), g_log st).

End Generator.

(** The draws of one session, in the order of the loop body. *)
Definition session_draws : list draw :=
  [DrawStation; DrawDay; DrawHour; DrawMinute; DrawDuration; DrawIntensity; DrawSuccess].

(** ** Vocabulary of the statements *)

Definition sumQ (l : list Q) : Q := foldl Qplus 0%Q l.

(** The fact rows of station [s]. *)
Definition station_group (t : tables) (s : Z) : list fact :=
  filter (λ f, fact_station_id f = s) (fact_rows t).

(** Success flags as the loader writes them: 0 or 1. *)
Definition flags_01 (t : tables) : Prop :=
  Forall (λ f, fact_success f = 0 ∨ fact_success f = 1) (fact_rows t).

(** The store of the KPI example of the spec: three sessions of station 1. *)
Definition kpi_example_db : tables :=
  mk_tables (<[1 := station_row 1]> ∅) (<[20250101 := time_row 0]> ∅)
    (<[1 := mk_fact 1 20250101 10 1 1]>
      (<[2 := mk_fact 1 20250101 20 2 1]>
        (<[3 := mk_fact 1 20250101 0 (1 # 2) 0]> ∅))).

(** Seconds since the epoch of the fields of a timestamp. *)
Definition secs_of_fields (f : ts_fields) : Z :=
  days_from_civil (f_year f) (f_month f) (f_day f) * 86400
  + f_hour f * 3600 + f_minute f * 60.

(** What [process_data] makes of one CSV line. *)
Definition row_of_raw (r : raw_row) (o : row) : Prop :=
  parse_ts (r_start_time r) = Some (start_time o) ∧
  parse_ts (r_end_time r) = Some (end_time o) ∧
  parse_int (strftime_ymd (start_time o)) = Some (date_key o) ∧
  duration_hours o = f64 (total_seconds (end_time o - start_time o) / 3600) ∧
  session_id o = r_session_id r ∧ station_id o = r_station_id r ∧
  energy_kwh o = r_energy_kwh r ∧ success o = r_success r.


(** Every integer [populate_fact] binds for the records [df] is within
    SQLite's INTEGER range. *)
Definition ids_fit (df : list row) : bool :=
  forallb (λ r, forallb int64_ok (fact_params r)) df.

(** Every integer [populate_dimensions] binds for the records [df] is
    within SQLite's INTEGER range. *)
Definition dims_fit (df : list row) : bool :=
  forallb (λ r, forallb int64_ok (station_params (station_id r)
                                   ++ date_params (date_key r, start_time r))) df.

(** [r] is the last record of the batch [df] with its session identifier. *)
Definition last_of_session (r : row) (df : list row) : Prop :=
  ∃ pre post, df = pre ++ r :: post ∧ Forall (λ r', session_id r' ≠ session_id r) post.

(** The fact table after [INSERT OR REPLACE] of the records of [df]. *)
Definition upsert_all (m : gmap Z fact) (df : list row) : gmap Z fact :=
  foldl (λ m r, <[session_id r := fact_of r]> m) m df.

(** The fact rows whose [time_id] joins a [dim_time] row of date [d]. *)
Definition date_group (t : tables) (d : string) : list fact :=
  filter (λ f, (date <$> dim_time t !! time_id f) = Some d) (fact_rows t).

(** The fact rows whose station is in [dim_station]. *)
Definition joined_facts (t : tables) : list fact :=
  filter (λ f, is_Some (dim_station t !! fact_station_id f)) (fact_rows t).

(** One 400-year era of the calendar, checked exhaustively: every date of
    the era has a day number within the era that [civil_of_day_of_era]
    maps back to it. *)
Definition era_date_ok (yoe m d : Z) : bool :=
  let doe := day_of_era yoe m d in
  (0 <=? doe) && (doe <? 146097)
  && (let '(yoe', m', d') := civil_of_day_of_era doe in
      (yoe' =? yoe) && (m' =? m) && (d' =? d)).

Definition era_month_ok (yoe m : Z) : bool :=
  forallb (era_date_ok yoe m) (seqZ 1 (days_in_month (if m <=? 2 then yoe + 1 else yoe) m)).

Definition era_year_ok (months : list Z) (yoe : Z) : bool := forallb (era_month_ok yoe) months.

(** ** [main]: the load stage *)

(** The steps of [main] once the CSV file exists, its lines being [rows]:
    [process_data] reads and cleans them; the old database file is
    removed, so [create_database] opens a new file with three empty
    tables; the dimensions are loaded, then the facts, and the KPIs are
    computed on the result.  The printing and the plot are left out. *)
Definition main_load (rows : list raw_row) : outcome (conn * list kpi) :=
  match process_data rows with
  | Raise e => Raise e
  | Ok df =>
      let c := create_database empty_tables in
      match populate_dimensions c df with
      | (_, Some e) => Raise e
      | (c1, None) =>
          match populate_fact c1 df with
          | Raise e => Raise e
          | Ok c2 => Ok (c2, compute_kpis c2)
          end
      end
  end.

(** [load_time_series] of [dashboard.py]: the query of
    [compute_time_series] on the dashboard's database file (the final
    [pd.to_datetime] of the date column is left out: dates stay ISO
    text). *)
Definition load_time_series (t : tables) : list daily :=
  map daily_of (order_by text_le (group_by (join_time t))).

(** ** Vocabulary of the further properties *)

Definition sumZ (l : list Z) : Z := foldr Z.add 0 l.

(** Every [dim_station] row is the one [populate_dimensions] writes for
    its key. *)
Definition stations_by_key (m : gmap Z station_dim) : Prop :=
  map_Forall (λ k s, s = station_row k) m.

(** The [dim_time] row of the date whose YYYYMMDD number is [k]. *)
Definition key_time_row (k : Z) : time_dim :=
  let y := k / 10000 in
  let mo := (k / 100) mod 100 in
  let d := k mod 100 in
  mk_time (iso_date y mo d) (weekday_name (weekday (days_from_civil y mo d))) mo y.

(** Every [dim_time] row is the row of the date its key encodes. *)
Definition times_by_key (m : gmap Z time_dim) : Prop :=
  map_Forall (λ k tm, tm = key_time_row k) m.

(** ISO text of the calendar date of the instant [t]. *)
Definition day_text (t : Z) : string :=
  let '(y, m, d) := date_of t in iso_date y m d.

(** A data line of the generated file: the values it is made of. *)
Record gen_line := mk_gen_line {
  l_station : Z; l_start : Z; l_duration : Z; l_energy : string; l_success : Z }.

(** The text of the data lines [ls], numbered from [sid]. *)
Fixpoint gen_lines_text (sid : Z) (ls : list gen_line) : string :=
  match ls with
  | [] => EmptyString
  | l :: ls' =>
      String.append
        (csv_line [str_of_Z sid; str_of_Z (l_station l); isoformat_minutes (l_start l);
                   isoformat_minutes (l_start l + l_duration l); l_energy l;
                   str_of_Z (l_success l)])
        (gen_lines_text (sid + 1) ls')
  end.

(** The values of a data line of the generated file lie within the bounds
    of the draws: a station in [1, n_stations], a start between
    2025-01-01T00:00 and 2025-01-30T23:59, a duration of 15 to 240
    minutes, an energy written from the duration and one float, and a 0/1
    success flag. *)
Definition gen_line_ok {F} (energy_text : F -> Z -> string) (n_stations : Z)
    (l : gen_line) : Prop :=
  1 <= l_station l <= n_stations ∧
  start_date <= l_start l <= start_date + 29 * 1440 + 23 * 60 + 59 ∧
  15 <= l_duration l <= 240 ∧
  (∃ u, l_energy l = energy_text u (l_duration l)) ∧
  (l_success l = 0 ∨ l_success l = 1).

(** Side conditions [0 <= n < 10 ^ w] of the four- and two-digit fields. *)
Ltac pow_bound :=
  first [replace (10 ^ Z.of_nat 4) with 10000 by reflexivity
        |replace (10 ^ Z.of_nat 2) with 100 by reflexivity]; lia.

(** * Proofs *)

(** ** Calendar *)

Lemma era_check_true : forallb (era_year_ok (seqZ 1 12)) (seqZ 0 400) = true.
Proof. vm_compute. reflexivity. Qed.

Lemma forallb_elem (f : Z -> bool) (l : list Z) (x : Z) :
  forallb f l = true -> x ∈ l -> f x = true.
Proof. intros H Hx. rewrite forallb_forall in H. by apply H, list_elem_of_In. Qed.

Lemma era_year_ok_elim (months : list Z) (yoe m : Z) :
  era_year_ok months yoe = true -> m ∈ months -> era_month_ok yoe m = true.
Proof. unfold era_year_ok. apply forallb_elem. Qed.

Lemma era_month_ok_elim (yoe m d : Z) :
  era_month_ok yoe m = true ->
  1 <= d <= days_in_month (if m <=? 2 then yoe + 1 else yoe) m -> era_date_ok yoe m d = true.
Proof.
  unfold era_month_ok. intros H Hd. apply (forallb_elem _ _ _ H).
  apply elem_of_seqZ. lia.
Qed.

Lemma era_date_ok_elim (yoe m d : Z) :
  era_date_ok yoe m d = true ->
  0 <= day_of_era yoe m d < 146097 ∧ civil_of_day_of_era (day_of_era yoe m d) = (yoe, m, d).
Proof.
  unfold era_date_ok. destruct (civil_of_day_of_era (day_of_era yoe m d)) as [[yoe' m'] d'].
  rewrite !andb_true_iff, Z.leb_le, Z.ltb_lt, !Z.eqb_eq.
  intros [[? ?] [[-> ->] ->]]. split; [lia|done].
Qed.

Lemma era_check_spec (yoe m d : Z) :
  0 <= yoe < 400 -> 1 <= m <= 12 ->
  1 <= d <= days_in_month (if m <=? 2 then yoe + 1 else yoe) m ->
  0 <= day_of_era yoe m d < 146097 ∧ civil_of_day_of_era (day_of_era yoe m d) = (yoe, m, d).
Proof.
  intros Hy Hm Hd. apply era_date_ok_elim, era_month_ok_elim; [|exact Hd].
  apply (era_year_ok_elim (seqZ 1 12)); [|apply elem_of_seqZ; lia].
  apply (forallb_elem (era_year_ok (seqZ 1 12)) (seqZ 0 400) yoe era_check_true).
  apply elem_of_seqZ. lia.
Qed.

Lemma is_leap_mod (y : Z) : is_leap y = is_leap (y mod 400).
Proof.
  unfold is_leap. rewrite Z.mod_mod by lia.
  rewrite (Z.mod_mod_divide y 400 4) by (exists 100; lia).
  rewrite (Z.mod_mod_divide y 400 100) by (exists 4; lia).
  done.
Qed.

(** [civil_from_days] inverts [days_from_civil] on every valid date. *)
Lemma civil_from_days_roundtrip (y m d : Z) :
  valid_date y m d = true -> civil_from_days (days_from_civil y m d) = (y, m, d).
Proof.
  unfold valid_date. intros Hv. rewrite !andb_true_iff, !Z.leb_le in Hv.
  destruct Hv as [[[Hm1 Hm2] Hd1] Hd2].
  unfold days_from_civil.
  set (y' := if m <=? 2 then y - 1 else y).
  set (era := y' / 400).
  assert (Hyoe : 0 <= y' - era * 400 < 400).
  { unfold era. pose proof (Z.mod_pos_bound y' 400 ltac:(lia)) as Hb.
    rewrite Z.mod_eq in Hb by lia. lia. }
  set (yoe := y' - era * 400) in *.
  set (y0 := if m <=? 2 then yoe + 1 else yoe).
  assert (Hy : y = y0 + era * 400).
  { unfold y0, yoe, y'. destruct (m <=? 2); lia. }
  assert (Hdim : days_in_month y m = days_in_month y0 m).
  { unfold days_in_month. rewrite (is_leap_mod y), (is_leap_mod y0), Hy.
    by rewrite Z_mod_plus_full. }
  destruct (era_check_spec yoe m d) as [Hb Hc]; [lia|lia|fold y0; lia|].
  unfold civil_from_days.
  replace (era * 146097 + day_of_era yoe m d - 719468 + 719468)
    with (day_of_era yoe m d + era * 146097) by lia.
  rewrite Z.div_add by lia. rewrite (Z.div_small (day_of_era yoe m d)) by lia.
  rewrite Z.add_0_l.
  replace (day_of_era yoe m d + era * 146097 - era * 146097) with (day_of_era yoe m d) by lia.
  rewrite Hc. cbn beta iota. f_equal. f_equal.
  rewrite Hy. unfold y0. destruct (m <=? 2); lia.
Qed.


Lemma fmap_is_map {A B} (f : A -> B) (l : list A) : f <$> l = map f l.
Proof. induction l as [|x l IH]; simpl; f_equal; done. Qed.

(** ** Decimal text *)

Lemma digit_val_char (k : Z) : 0 <= k <= 9 -> digit_val (digit_char k) = Some k.
Proof.
  intros Hk.
  assert (Hc : k = 0 ∨ k = 1 ∨ k = 2 ∨ k = 3 ∨ k = 4 ∨ k = 5 ∨ k = 6 ∨ k = 7
               ∨ k = 8 ∨ k = 9) by lia.
  repeat (destruct Hc as [->|Hc]; [reflexivity|]). subst k. reflexivity.
Qed.

Lemma digit_val_range (c : ascii) (k : Z) : digit_val c = Some k -> 0 <= k <= 9.
Proof.
  unfold digit_val. case_match eqn:E; [|done]. intros [= <-].
  rewrite andb_true_iff, !Z.leb_le in E. lia.
Qed.

Lemma parse_digits_app (acc : Z) (s1 s2 : string) :
  parse_digits acc (String.append s1 s2) = (parse_digits acc s1 ≫= λ a, parse_digits a s2).
Proof.
  revert acc. induction s1 as [|c s1 IH]; intros acc; simpl; [done|].
  destruct (digit_val c); [apply IH|done].
Qed.

Lemma parse_digits_pad (w : nat) (n acc : Z) :
  parse_digits acc (pad w n) = Some (acc * 10 ^ Z.of_nat w + n mod 10 ^ Z.of_nat w).
Proof.
  revert n acc. induction w as [|w IH]; intros n acc.
  - simpl. change (10 ^ Z.of_nat 0) with 1. rewrite Z.mod_1_r. f_equal. ring.
  - cbn [pad]. rewrite parse_digits_app, IH. cbn [mbind option_bind parse_digits].
    rewrite digit_val_char by (pose proof (Z.mod_pos_bound n 10); lia).
    cbn [parse_digits]. f_equal.
    rewrite Nat2Z.inj_succ, Z.pow_succ_r by lia.
    rewrite Z.rem_mul_r by (try pose proof (Z.pow_pos_nonneg 10 (Z.of_nat w)); lia).
    ring.
Qed.

Lemma pad_nonempty (w : nat) (n : Z) : pad (S w) n ≠ EmptyString.
Proof. cbn [pad]. by destruct (pad w (n / 10)). Qed.

Lemma parse_int_ymd (y m d : Z) :
  parse_int (String.append (pad 4 y) (String.append (pad 2 m) (pad 2 d)))
  = Some ((y mod 10000) * 10000 + (m mod 100) * 100 + d mod 100).
Proof.
  assert (E : ∀ s1 s2, s1 ≠ EmptyString -> parse_int (String.append s1 s2) = parse_digits 0 (String.append s1 s2))
    by (intros [|c s1] s2 Hs; done).
  rewrite E by apply pad_nonempty.
  rewrite parse_digits_app, parse_digits_pad. cbn [mbind option_bind].
  rewrite parse_digits_app, !parse_digits_pad. cbn [mbind option_bind].
  rewrite parse_digits_pad.
  change (10 ^ Z.of_nat 4) with 10000. change (10 ^ Z.of_nat 2) with 100.
  f_equal. ring.
Qed.

(** ** Timestamps *)

Lemma digits2_range (a b : ascii) (k : Z) : digits2 a b = Some k -> 0 <= k <= 99.
Proof.
  unfold digits2. destruct (digit_val a) as [ka|] eqn:Ea; [|done].
  destruct (digit_val b) as [kb|] eqn:Eb; [|done]. simpl. intros [= <-].
  apply digit_val_range in Ea, Eb. lia.
Qed.

Lemma digits4_range (a b c d : ascii) (k : Z) : digits4 a b c d = Some k -> 0 <= k <= 9999.
Proof.
  unfold digits4. destruct (digits2 a b) as [hi|] eqn:Ea; [|done].
  destruct (digits2 c d) as [lo|] eqn:Eb; [|done]. simpl. intros [= <-].
  apply digits2_range in Ea, Eb. lia.
Qed.

Lemma fields_range (y1 y2 y3 y4 m1 m2 d1 d2 h1 h2 n1 n2 : ascii) (f : ts_fields) :
  (y ← digits4 y1 y2 y3 y4; m ← digits2 m1 m2; d ← digits2 d1 d2;
   h ← digits2 h1 h2; n ← digits2 n1 n2; Some (mk_fields y m d h n)) = Some f ->
  0 <= f_year f <= 9999 ∧ 0 <= f_hour f ∧ 0 <= f_minute f.
Proof.
  destruct (digits4 y1 y2 y3 y4) as [y|] eqn:Ey; [|done]. simpl.
  destruct (digits2 m1 m2) as [m|]; [|done]. simpl.
  destruct (digits2 d1 d2) as [d|]; [|done]. simpl.
  destruct (digits2 h1 h2) as [h|] eqn:Eh; [|done]. simpl.
  destruct (digits2 n1 n2) as [n|] eqn:En; [|done]. simpl.
  intros [= <-]. simpl.
  apply digits4_range in Ey. apply digits2_range in Eh, En. lia.
Qed.

Lemma parse_fields_range (s : string) (f : ts_fields) :
  parse_fields s = Some f -> 0 <= f_year f <= 9999 ∧ 0 <= f_hour f ∧ 0 <= f_minute f.
Proof.
  unfold parse_fields. generalize (list_ascii_of_string s). intros l.
  repeat case_match; try discriminate. apply fields_range.
Qed.

Lemma days_in_month_le (y m : Z) : days_in_month y m <= 31.
Proof. unfold days_in_month. repeat case_match; lia. Qed.

Lemma parse_ts_Some (s : string) (t : Z) :
  parse_ts s = Some t ->
  ∃ f, parse_fields s = Some f ∧
       valid_date (f_year f) (f_month f) (f_day f) = true ∧
       0 <= f_year f <= 9999 ∧ 0 <= f_hour f < 24 ∧ 0 <= f_minute f < 60 ∧
       t = ns_of_fields f.
Proof.
  unfold parse_ts, ts_of_fields. destruct (parse_fields s) as [f|] eqn:E; [|done]. simpl.
  destruct (valid_date (f_year f) (f_month f) (f_day f)) eqn:V; [|done].
  destruct (f_hour f <? 24) eqn:H1; [|done]. destruct (f_minute f <? 60) eqn:H2; [|done].
  simpl. case_match; [|done]. intros [= <-].
  apply parse_fields_range in E as Hr. apply Z.ltb_lt in H1, H2.
  exists f. repeat split; auto; lia.
Qed.

Lemma ns_of_fields_day (f : ts_fields) :
  0 <= f_hour f < 24 -> 0 <= f_minute f < 60 ->
  ns_of_fields f / ns_per_day = days_from_civil (f_year f) (f_month f) (f_day f).
Proof.
  intros Hh Hm. unfold ns_of_fields, ns_per_day, ns_per_second.
  symmetry. apply Z.div_unique with ((f_hour f * 3600 + f_minute f * 60) * 1000000000); [left; lia|ring].
Qed.

Lemma ns_of_fields_secs (f : ts_fields) : ns_of_fields f = secs_of_fields f * ns_per_second.
Proof. reflexivity. Qed.

(** The [%Y%m%d] text of a parsed timestamp, read back by [int]. *)
Lemma date_key_of_fields (f : ts_fields) :
  valid_date (f_year f) (f_month f) (f_day f) = true ->
  0 <= f_year f <= 9999 -> 0 <= f_hour f < 24 -> 0 <= f_minute f < 60 ->
  parse_int (strftime_ymd (ns_of_fields f))
  = Some (f_year f * 10000 + f_month f * 100 + f_day f).
Proof.
  intros V Hy Hh Hm. unfold strftime_ymd.
  rewrite ns_of_fields_day, civil_from_days_roundtrip by done.
  rewrite parse_int_ymd. unfold valid_date in V.
  rewrite !andb_true_iff, !Z.leb_le in V.
  pose proof (days_in_month_le (f_year f) (f_month f)).
  rewrite !Z.mod_small by lia. done.
Qed.


(** ** Binary64 rounding *)

Lemma f64_compat (x y : Q) : (x == y)%Q -> f64 x = f64 y.
Proof. intros H. unfold f64. by rewrite (Qred_complete x y H). Qed.



Lemma round_even_exact (n d m : Z) : 0 < d -> n = m * d -> round_even n d = m.
Proof.
  intros Hd ->. unfold round_even. rewrite Z.div_mul, Z.mod_mul by lia.
  simpl. destruct d; [lia|reflexivity|lia].
Qed.



Lemma pow2_shift (m x k : Z) : 0 <= x -> 0 <= x + k ->
  (inject_Z (m * 2 ^ x) * pow2 k == inject_Z (m * 2 ^ (x + k)))%Q.
Proof.
  intros Hx Hxk. unfold pow2. destruct (0 <=? k) eqn:E.
  - apply Z.leb_le in E. rewrite <- inject_Z_mult, <- Z.mul_assoc, <- Z.pow_add_r by lia.
    reflexivity.
  - apply Z.leb_gt in E.
    replace (m * 2 ^ x) with (m * 2 ^ (x + k) * 2 ^ (- k))
      by (rewrite <- Z.mul_assoc, <- Z.pow_add_r by lia; f_equal; f_equal; lia).
    rewrite inject_Z_mult. field.
    intros Hq. unfold Qeq in Hq. simpl in Hq.
    assert (0 < 2 ^ (- k)) by (apply Z.pow_pos_nonneg; lia). lia.
Qed.

(** A positive integer [M * 2^j] with a 53-bit [M] is rounded to itself. *)
Lemma round_pos_int (a M j : Z) :
  0 < M < 2 ^ 53 -> 0 <= j -> a = M * 2 ^ j -> (round_pos a 1 == inject_Z a)%Q.
Proof.
  intros HM Hj Ha.
  assert (Hpos : 0 < a) by (subst; apply Z.mul_pos_pos; [lia|apply Z.pow_pos_nonneg; lia]).
  unfold round_pos. rewrite Z.log2_1, Z.pow_0_r.
  set (la := Z.log2 a).
  destruct (Z.log2_spec a Hpos) as [A1 A2]. fold la in A1, A2.
  assert (Hla : 0 <= la) by apply Z.log2_nonneg.
  replace (a * 1 <? 1 * 2 ^ la) with false by (symmetry; apply Z.ltb_ge; lia).
  cbv beta iota.
  assert (Hlj : la <= j + 52).
  { assert (2 ^ la < 2 ^ (53 + j)).
    { rewrite Z.pow_add_r by lia. rewrite Ha in A1.
      assert (0 < 2 ^ j) by (apply Z.pow_pos_nonneg; lia). nia. }
    apply Z.pow_lt_mono_r_iff in H; lia. }
  rewrite (round_even_exact _ _ (M * 2 ^ (j + 52 - la))).
  - replace (la + 8 - 0 - 60) with (la - 52) by lia.
    rewrite pow2_shift by lia. rewrite Ha.
    replace (j + 52 - la + (la - 52)) with j by lia. reflexivity.
  - apply Z.mul_pos_pos; [lia|]. apply Z.pow_pos_nonneg; lia.
  - rewrite Ha, Z.mul_1_l, <- !Z.mul_assoc, <- !Z.pow_add_r by lia. f_equal. f_equal. lia.
Qed.

Lemma Qred_inject_Z (n : Z) : Qred (inject_Z n) = inject_Z n.
Proof.
  unfold Qred, inject_Z.
  pose proof (Z.ggcd_gcd n 1) as G. pose proof (Z.ggcd_correct_divisors n 1) as D.
  destruct (Z.ggcd n 1) as [g [aa bb]]. simpl in *. rewrite Z.gcd_1_r in G. subst g.
  destruct D as [D1 D2]. rewrite !Z.mul_1_l in D1, D2. by subst.
Qed.

(** An integer [M * 2^j] with [|M| < 2^53] is a binary64 number. *)
Lemma f64_int (n M j : Z) :
  Z.abs M < 2 ^ 53 -> 0 <= j -> n = M * 2 ^ j -> (f64 (inject_Z n) == inject_Z n)%Q.
Proof.
  intros HM Hj Hn. unfold f64. rewrite Qred_inject_Z. simpl.
  assert (0 < 2 ^ j) by (apply Z.pow_pos_nonneg; lia).
  destruct n as [|p|p]; [reflexivity|..].
  - simpl. apply (round_pos_int _ M j); [|done|done].
    assert (0 < M); [|lia]. nia.
  - simpl. rewrite (round_pos_int (Zpos p) (- M) j).
    + reflexivity.
    + assert (M < 0); [|lia]. nia.
    + done.
    + lia.
Qed.



(** ** [process_data] *)

Lemma assemble_spec (rows : list raw_row) (starts ends keys : list Z) :
  Forall2 (λ r s, parse_ts (r_start_time r) = Some s) rows starts ->
  Forall2 (λ r e, parse_ts (r_end_time r) = Some e) rows ends ->
  Forall2 (λ s k, parse_int (strftime_ymd s) = Some k) starts keys ->
  Forall2 row_of_raw rows (assemble rows starts ends keys).
Proof.
  intros Hs. revert ends keys.
  induction Hs as [|r s rows starts Hr Hs IH]; intros ends keys He Hk; [constructor|].
  inversion He as [|? e ? ends' He1 He2]; subst.
  inversion Hk as [|? k ? keys' Hk1 Hk2]; subst.
  simpl. constructor; [|by apply IH]. repeat split; done.
Qed.

Lemma cell_ts_of (s : string) : cell_ts (cell_of s) = parse_ts s.
Proof.
  destruct s as [|a s]; [reflexivity|]. unfold cell_of, parse_ts.
  by destruct (parse_fields (String a s)).
Qed.


Lemma mapM_id_map {A B} (f : A -> option B) (l : list A) :
  mapM (λ t, t) (map f l) = mapM f l.
Proof. induction l as [|x l IH]; simpl; [done|]. by rewrite IH. Qed.

Lemma convert_Datetime (cells : list string) (ts : list (option Z)) :
  convert_column cells = Datetime ts -> ts = map parse_ts cells.
Proof.
  unfold convert_column. repeat case_match; try done. intros [= <-].
  rewrite map_map. apply map_ext, cell_ts_of.
Qed.



Lemma process_data_Ok (rows : list raw_row) (out : list row) :
  process_data rows = Ok out -> Forall2 row_of_raw rows out.
Proof.
  unfold process_data. destruct rows as [|r0 rows0]; [done|].
  destruct (convert_column (map r_start_time (r0 :: rows0))) as [|ss|] eqn:Cs; try done;
    destruct (convert_column (map r_end_time (r0 :: rows0))) as [|es|] eqn:Ce; try done.
  apply convert_Datetime in Cs, Ce. subst ss es. rewrite !mapM_id_map.
  destruct (mapM parse_ts (map r_start_time (r0 :: rows0))) as [starts|] eqn:Hs; [|done].
  destruct (mapM parse_ts (map r_end_time (r0 :: rows0))) as [ends|] eqn:He; [|done].
  destruct (mapM parse_int (map strftime_ymd starts)) as [keys|] eqn:Hk; [|done].
  intros [= <-].
  rewrite <- fmap_is_map in Hs. rewrite <- fmap_is_map in He. rewrite <- fmap_is_map in Hk.
  apply mapM_Some_1, Forall2_fmap_l in Hs, He, Hk.
  exact (assemble_spec _ _ _ _ Hs He Hk).
Qed.







Lemma parse_ts_range (s : string) (t : Z) : parse_ts s = Some t -> ns_min <= t <= ns_max.
Proof.
  unfold parse_ts, ts_of_fields. destruct (parse_fields s) as [f|]; [|done]. simpl.
  repeat case_match; try done. intros [= <-].
  match goal with H : (_ && _)%bool = true |- _ => apply andb_true_iff in H as [H1 H2] end.
  apply Z.leb_le in H1, H2. lia.
Qed.


(** The float64 [duration_hours] of two timestamps within the
    [datetime64[ns]] range: the nanosecond difference and the seconds are
    computed exactly, the only rounding is that of the division by
    3600. *)
Lemma duration_hours_secs (fs fe : ts_fields) :
  ns_min <= ns_of_fields fs <= ns_max -> ns_min <= ns_of_fields fe <= ns_max ->
  f64 (total_seconds (ns_of_fields fe - ns_of_fields fs) / 3600)
  = f64 (inject_Z (secs_of_fields fe - secs_of_fields fs) / 3600).
Proof.
  intros Hs He. apply f64_compat.
  set (K := (days_from_civil (f_year fe) (f_month fe) (f_day fe) * 1440
             + f_hour fe * 60 + f_minute fe)
            - (days_from_civil (f_year fs) (f_month fs) (f_day fs) * 1440
               + f_hour fs * 60 + f_minute fs)).
  assert (ED : secs_of_fields fe - secs_of_fields fs = 60 * K)
    by (unfold K, secs_of_fields; ring).
  assert (EN : ns_of_fields fe - ns_of_fields fs = (secs_of_fields fe - secs_of_fields fs) * ns_per_second)
    by (rewrite !ns_of_fields_secs; ring).
  assert (HK : Z.abs (K * 29296875) < 2 ^ 53).
  { rewrite ED in EN. unfold ns_min, ns_max, ns_per_second in *. lia. }
  assert (T : total_seconds (ns_of_fields fe - ns_of_fields fs)
              = f64 (inject_Z (secs_of_fields fe - secs_of_fields fs))).
  { unfold total_seconds. apply f64_compat.
    rewrite (f64_int _ (K * 29296875) 11); [|done|lia|].
    2:{ rewrite EN, ED. unfold ns_per_second. change (2 ^ 11) with 2048. ring. }
    rewrite EN, inject_Z_mult. field.
    intros Hq. vm_compute in Hq. discriminate Hq. }
  rewrite T. rewrite (f64_int _ (secs_of_fields fe - secs_of_fields fs) 0); [reflexivity| |lia|ring].
  rewrite ED. lia.
Qed.



(** A 31-minute session: its [duration_hours] is the float64 number
    0.5166666666666667, not 31/60, and the float64 product of it by 3600
    is 1860.0000000000002, not the 1860 seconds of the session. *)
Lemma process_data_duration_inexact :
  ∃ o, process_data [mk_raw 1 1 "2025-01-01T08:00" "2025-01-01T08:31" 5%Q 1] = Ok [o] ∧
       (duration_hours o == 4653719614949513 # 9007199254740992)%Q ∧
       ¬ (duration_hours o * 3600 == 1860)%Q ∧
       (f64 (duration_hours o * 3600) == 1860 + (1 # 4398046511104))%Q.
Proof.
  eexists. split; [vm_compute; reflexivity|].
  split; [vm_compute; reflexivity|]. split.
  - vm_compute. intros H. discriminate H.
  - vm_compute. reflexivity.
Qed.

(** C4 (as the code has it). Every record of [process_data] has as
    [duration_hours] the float64 number nearest to the number of seconds
    between its start and end timestamps, read from their calendar fields
    (so also across a day boundary), divided by 3600: the one rounding is
    that of [/ 3600.0].  The session 2025-01-01T23:50 to
    2025-01-02T00:20 lasts exactly 0.5 hours. *)
Theorem process_data_duration_rounded :
  (∀ rows out, process_data rows = Ok out ->
     Forall2 (λ r o, ∃ fs fe,
        parse_fields (r_start_time r) = Some fs ∧ parse_fields (r_end_time r) = Some fe ∧
        start_time o = ns_of_fields fs ∧ end_time o = ns_of_fields fe ∧
        duration_hours o = f64 (inject_Z (secs_of_fields fe - secs_of_fields fs) / 3600))
       rows out) ∧
  (∃ o, process_data [mk_raw 1 1 "2025-01-01T23:50" "2025-01-02T00:20" 5%Q 1] = Ok [o] ∧
        (duration_hours o == 1 # 2)%Q).
Proof.
  split.
  - intros rows out Hp. eapply Forall2_impl; [by apply process_data_Ok|].
    intros r o (Hs & He & _ & Hd & _).
    pose proof (parse_ts_range _ _ Hs) as Rs. pose proof (parse_ts_range _ _ He) as Re.
    apply parse_ts_Some in Hs as (fs & Fs & _ & _ & _ & _ & Hts).
    apply parse_ts_Some in He as (fe & Fe & _ & _ & _ & _ & Hte).
    exists fs, fe. repeat split; [done..|]. rewrite Hd, Hts, Hte.
    apply duration_hours_secs; [by rewrite <- Hts|by rewrite <- Hte].
  - eexists. split; [vm_compute; reflexivity|]. vm_compute. reflexivity.
Qed.

(** C5. Every record of [process_data] has as [date_key] the number
    YYYYMMDD of the calendar date of its start timestamp: its time of day
    and its end timestamp play no part; a session starting at
    2025-03-07T08:15 gets 20250307. *)
Theorem process_data_date_key :
  (∀ rows out, process_data rows = Ok out ->
     Forall2 (λ r o, ∃ f, parse_fields (r_start_time r) = Some f ∧
        date_key o = f_year f * 10000 + f_month f * 100 + f_day f) rows out) ∧
  (∃ o, process_data [mk_raw 1 1 "2025-03-07T08:15" "2025-03-07T09:40" 7%Q 1] = Ok [o] ∧
        date_key o = 20250307).
Proof.
  split.
  - intros rows out Hp. eapply Forall2_impl; [by apply process_data_Ok|].
    intros r o (Hs & _ & Hk & _).
    apply parse_ts_Some in Hs as (f & F & V & Hy & Hh & Hm & Ht).
    exists f. split; [done|]. rewrite Ht, date_key_of_fields in Hk by done.
    by injection Hk.
  - eexists. split; [vm_compute; reflexivity|]. reflexivity.
Qed.

(** ** Grouped aggregation *)

Section GroupBy.
Context {K : Type} `{Countable K}.

Lemma group_by_lookup (l : list (K * fact)) (k : K) :
  group_by l !! k =
    match filter (λ p, p.1 = k) l with
    | [] => None
    | g => Some (agg_of g.*2)
    end.
Proof.
  unfold group_by. induction l as [|x l IH] using rev_ind.
  - simpl. apply lookup_empty.
  - rewrite foldl_app. simpl. rewrite filter_app, filter_cons, filter_nil.
    destruct (decide (x.1 = k)) as [<-|Hne].
    + rewrite lookup_insert_eq. rewrite IH.
      destruct (filter (λ p, p.1 = x.1) l) as [|y g] eqn:Hg; [done|].
      rewrite <- app_comm_cons. simpl default. f_equal.
      unfold agg_of. rewrite fmap_app, app_comm_cons, foldl_app. done.
    + rewrite lookup_insert_ne by done. rewrite app_nil_r. exact IH.
Qed.

Lemma group_by_is_Some (l : list (K * fact)) (k : K) :
  is_Some (group_by l !! k) ↔ ∃ p, p ∈ l ∧ p.1 = k.
Proof.
  rewrite group_by_lookup.
  destruct (filter (λ p, p.1 = k) l) as [|y g] eqn:Hg.
  - split; [by intros [? ?]|]. intros [p [Hp Hk]].
    assert (p ∈ filter (λ p, p.1 = k) l) as Hin
      by (apply list_elem_of_filter; done).
    rewrite Hg in Hin. set_solver.
  - split; [|eauto]. intros _.
    assert (y ∈ filter (λ p, p.1 = k) l) as Hin by (rewrite Hg; set_solver).
    apply list_elem_of_filter in Hin as [? ?]. eauto.
Qed.

Lemma group_by_Some (l : list (K * fact)) (k : K) (a : agg) :
  group_by l !! k = Some a →
  filter (λ p, p.1 = k) l ≠ [] ∧ a = agg_of (filter (λ p, p.1 = k) l).*2.
Proof.
  rewrite group_by_lookup.
  destruct (filter (λ p, p.1 = k) l); [done|]. intros [= <-]. done.
Qed.

Context (le : K -> K -> Prop) `{!RelDecision le} `{!Total le} `{!Transitive le}.

Global Instance fst_le_total {V} : Total (@fst_le K V le).
Proof. intros p q. unfold fst_le. apply total. apply _. Qed.

Global Instance fst_le_trans {V} : Transitive (@fst_le K V le).
Proof. intros p q r. unfold fst_le. apply transitivity. Qed.

Lemma order_by_perm (g : gmap K agg) : order_by le g ≡ₚ map_to_list g.
Proof. apply merge_sort_Permutation. Qed.

Lemma order_by_elem (g : gmap K agg) (p : K * agg) :
  p ∈ order_by le g ↔ g !! p.1 = Some p.2.
Proof.
  rewrite (order_by_perm g). destruct p. apply elem_of_map_to_list.
Qed.

(** The keys of the result are strictly ascending. *)
Lemma order_by_strict (g : gmap K agg) :
  StronglySorted (λ a b, le a b ∧ a ≠ b) (order_by le g).*1.
Proof.
  assert (Hs : StronglySorted (fst_le le) (order_by le g)).
  { apply Sorted_StronglySorted; [apply _|]. apply Sorted_merge_sort. apply _. }
  assert (Hnd : NoDup (order_by le g).*1).
  { rewrite (order_by_perm g). apply NoDup_fst_map_to_list. }
  revert Hnd. induction Hs as [|x l Hl IH Hx]; simpl; intros Hnd; constructor.
  - apply IH. by inversion Hnd.
  - inversion Hnd as [|? ? Hnotin _]; subst.
    apply Forall_fmap, Forall_forall. intros y Hy. simpl.
    split; [by eapply Forall_forall in Hx|].
    intros Heq. apply Hnotin. rewrite Heq. by apply list_elem_of_fmap_2.
Qed.
End GroupBy.

Lemma StronglySorted_weaken {A} (R R' : A -> A -> Prop) (l : list A) :
  (∀ a b, R a b -> R' a b) -> StronglySorted R l -> StronglySorted R' l.
Proof.
  intros HR Hs. induction Hs as [|x l _ IH Hx]; constructor; [done|].
  eapply Forall_impl; [exact Hx|]. eauto.
Qed.

(** ** Aggregates *)

Lemma agg_fold_fields (a : agg) (fs : list fact) :
  n_rows (foldl agg_step a fs) = n_rows a + Z.of_nat (length fs) ∧
  sum_success (foldl agg_step a fs) = foldl Z.add (sum_success a) (map fact_success fs) ∧
  sum_energy (foldl agg_step a fs) = foldl Qplus (sum_energy a) (map fact_energy_kwh fs) ∧
  sum_duration (foldl agg_step a fs) = foldl Qplus (sum_duration a) (map fact_duration_hours fs).
Proof.
  revert a. induction fs as [|f fs IH]; intros a; simpl.
  - repeat split; lia.
  - destruct (IH (agg_step a f)) as (H1 & H2 & H3 & H4).
    rewrite H1, H2, H3, H4. simpl. repeat split; lia.
Qed.

Lemma agg_of_fields (fs : list fact) :
  n_rows (agg_of fs) = Z.of_nat (length fs) ∧
  sum_success (agg_of fs) = foldl Z.add 0 (map fact_success fs) ∧
  sum_energy (agg_of fs) = sumQ (map fact_energy_kwh fs) ∧
  sum_duration (agg_of fs) = sumQ (map fact_duration_hours fs).
Proof. apply (agg_fold_fields agg0 fs). Qed.

(** With 0/1 flags the [SUM(success)] counts the successful sessions. *)
Lemma sum_flags_01 (s : Z) (fs : list fact) :
  Forall (λ f, fact_success f = 0 ∨ fact_success f = 1) fs ->
  foldl Z.add s (map fact_success fs)
  = s + Z.of_nat (length (filter (λ f, fact_success f = 1) fs)).
Proof.
  revert s. induction fs as [|f fs IH]; intros s Hf; simpl; [lia|].
  inversion Hf as [|? ? Hf1 Hfs]; subst. rewrite IH by done.
  rewrite filter_cons. destruct Hf1 as [E|E]; rewrite E;
    case_decide; simpl; lia.
Qed.

Lemma filter_length_le {A} (P : A -> Prop) `{∀ x, Decision (P x)} (l : list A) :
  (length (filter P l) <= length l)%nat.
Proof.
  induction l as [|x l IH]; simpl; [lia|]. rewrite filter_cons. case_decide; simpl; lia.
Qed.

(** The group of key [k] in the rows tagged by [key]. *)
Lemma filter_tagged {K} `{EqDecision K} (key : fact -> K) (fs : list fact) (k : K) :
  (filter (λ p, p.1 = k) (map (λ f, (key f, f)) fs)).*2 = filter (λ f, key f = k) fs.
Proof.
  induction fs as [|f fs IH]; [done|]. cbn [map].
  rewrite !filter_cons. simpl fst.
  destruct (decide (key f = k)); [|done]. simpl. f_equal. exact IH.
Qed.

(** [kpi_rows]: one row per group, keys strictly ascending. *)
Lemma kpi_rows_keys (l : list (Z * fact)) :
  map kpi_station_id (kpi_rows l) = (order_by Z.le (group_by l)).*1.
Proof.
  unfold kpi_rows. rewrite (fmap_is_map fst), List.map_map. reflexivity.
Qed.

Lemma kpi_rows_sorted (l : list (Z * fact)) :
  StronglySorted Z.lt (map kpi_station_id (kpi_rows l)).
Proof.
  rewrite kpi_rows_keys. eapply StronglySorted_weaken; [|apply order_by_strict; apply _].
  simpl. intros a b [? ?]. lia.
Qed.

Lemma kpi_rows_elem (l : list (Z * fact)) (k : kpi) :
  k ∈ kpi_rows l ↔ ∃ a, group_by l !! kpi_station_id k = Some a ∧ k = kpi_of (kpi_station_id k, a).
Proof.
  unfold kpi_rows. rewrite <- fmap_is_map, list_elem_of_fmap. split.
  - intros [[s a] [-> Hp]]. apply order_by_elem in Hp; [|apply _..]. by exists a.
  - intros [a [Ha Hk]]. exists (kpi_station_id k, a). split; [done|].
    apply order_by_elem; [apply _..|]. done.
Qed.

Lemma kpi_rows_keys_elem (l : list (Z * fact)) (s : Z) :
  s ∈ map kpi_station_id (kpi_rows l) ↔ ∃ p, p ∈ l ∧ p.1 = s.
Proof.
  rewrite <- group_by_is_Some, <- fmap_is_map, list_elem_of_fmap. split.
  - intros [k [-> Hk]]. apply kpi_rows_elem in Hk as [a [Ha _]]. by exists a.
  - intros [a Ha]. exists (kpi_of (s, a)). split; [done|].
    apply kpi_rows_elem. by exists a.
Qed.

Lemma ratio_01 (a b : Z) :
  0 <= a <= b -> 0 < b -> (0 <= inject_Z a / inject_Z b <= 1)%Q.
Proof.
  intros Hab Hb. destruct b as [|pb|pb]; try lia.
  split; unfold Qle, Qdiv, Qmult, Qinv, inject_Z; simpl; nia.
Qed.

Lemma compute_kpis_unfold (c : conn) :
  compute_kpis c = kpi_rows (map (λ f, (fact_station_id f, f)) (fact_rows (db c))).
Proof. reflexivity. Qed.

(** C1. [compute_kpis] groups the fact rows by station: one row per station
    having at least one fact row, in strictly ascending station order; the
    row of station [s] counts the fact rows of [s], its success rate is the
    share of them with [success = 1] (a number in [0, 1] when the flags are
    0/1, as the loader writes them), and its averages are the means of
    [energy_kwh] and [duration_hours] over them.  On the spec's example of
    three sessions of station 1 it gives 3 sessions, a success rate within
    0.001 of 0.667, an average energy of 10 and an average duration within
    0.001 of 1.167. *)
Theorem compute_kpis_groups_by_station :
  (∀ c : conn, flags_01 (db c) ->
     StronglySorted Z.lt (map kpi_station_id (compute_kpis c)) ∧
     (∀ s, s ∈ map kpi_station_id (compute_kpis c) ↔
           ∃ f, f ∈ fact_rows (db c) ∧ fact_station_id f = s) ∧
     (∀ k, k ∈ compute_kpis c ->
        let g := station_group (db c) (kpi_station_id k) in
        g ≠ [] ∧
        total_sessions k = Z.of_nat (length g) ∧
        (success_rate k == inject_Z (Z.of_nat (length (filter (λ f, fact_success f = 1%Z) g)))
                           / inject_Z (Z.of_nat (length g)))%Q ∧
        (0 <= success_rate k <= 1)%Q ∧
        (avg_energy_kwh k == sumQ (map fact_energy_kwh g) / inject_Z (Z.of_nat (length g)))%Q ∧
        (avg_duration_hours k
           == sumQ (map fact_duration_hours g) / inject_Z (Z.of_nat (length g)))%Q)) ∧
  (∃ k, compute_kpis (create_database kpi_example_db) = [k] ∧
        kpi_station_id k = 1 ∧ total_sessions k = 3 ∧
        (Qabs (success_rate k - (667 # 1000)) <= 1 # 1000)%Q ∧
        (avg_energy_kwh k == 10)%Q ∧
        (Qabs (avg_duration_hours k - (1167 # 1000)) <= 1 # 1000)%Q).
Proof.
  split.
  - intros c Hflags. rewrite compute_kpis_unfold.
    set (l := map (λ f, (fact_station_id f, f)) (fact_rows (db c))).
    split; [apply kpi_rows_sorted|]. split.
    + intros s. rewrite kpi_rows_keys_elem. subst l. split.
      * intros [p [Hp Hs]]. rewrite <- fmap_is_map in Hp.
        apply list_elem_of_fmap in Hp as [f [-> Hf]]. eauto.
      * intros [f [Hf Hs]]. exists (fact_station_id f, f). split; [|done].
        rewrite <- fmap_is_map. by apply (list_elem_of_fmap_2 (λ f, (fact_station_id f, f))).
    + intros k Hk. apply kpi_rows_elem in Hk as [a [Ha Hk]].
      remember (kpi_station_id k) as s eqn:Hs. subst k. simpl.
      apply group_by_Some in Ha as [Hne ->].
      subst l. rewrite filter_tagged in *. fold (station_group (db c) s).
      set (g := station_group (db c) s).
      assert (Hg : g ≠ []).
      { intros Hg. apply Hne. unfold g, station_group in Hg.
        rewrite <- (filter_tagged fact_station_id) in Hg.
        by eapply fmap_nil_inv. }
      destruct (agg_of_fields g) as (H1 & H2 & H3 & H4).
      assert (Hg01 : Forall (λ f, fact_success f = 0 ∨ fact_success f = 1) g).
      { apply Forall_forall. intros f Hf. unfold g, station_group in Hf.
        apply list_elem_of_filter in Hf as [_ Hf].
        unfold flags_01 in Hflags. rewrite Forall_forall in Hflags. auto. }
      rewrite sum_flags_01 in H2 by exact Hg01.
      assert (Hlen : (0 < length g)%nat) by (destruct g; simpl; [done|lia]).
      pose proof (filter_length_le (λ f, fact_success f = 1) g) as Hle.
      rewrite H1, H2, H3, H4. simpl Z.add.
      split; [done|]. split; [done|]. split; [|split; [|split; reflexivity]].
      * rewrite Qmult_1_r. reflexivity.
      * rewrite Qmult_1_r. apply ratio_01; lia.
  - eexists. split; [vm_compute; reflexivity|].
    repeat split; vm_compute; congruence.
Qed.

(** ** The generator *)

Section GeneratorProofs.
Context {St F : Type} (rng_seed : Z -> St) (randbelow : Z -> St -> Z * St)
        (random : St -> F * St) (energy_text : F -> Z -> string) (lt_09 : F -> bool).

Lemma gen_session_log (n_stations sid : Z) (st : @gstate St) :
  0 < n_stations ->
  ∃ st', gen_session randbelow random energy_text lt_09 n_stations sid st = (Ok tt, st') ∧
         g_log st' = g_log st ++ session_draws.
Proof.
  intros Hn. unfold gen_session, gbind, randint, random_float, writerow.
  assert (E : (n_stations <? 1) = false) by (apply Z.ltb_ge; lia).
  simpl. rewrite E.
  repeat (simpl; match goal with
    | |- context [randbelow ?a ?b] => destruct (randbelow a b)
    | |- context [random ?b] => destruct (random b)
    end).
  eexists. split; [reflexivity|]. simpl. by rewrite <- !List.app_assoc.
Qed.

Lemma gen_sessions_log (n_stations : Z) (k : nat) (sid : Z) (st : @gstate St) :
  0 < n_stations ->
  ∃ st', gen_sessions randbelow random energy_text lt_09 n_stations k sid st = (Ok tt, st') ∧
         g_log st' = g_log st ++ concat (replicate k session_draws).
Proof.
  intros Hn. revert sid st. induction k as [|k IH]; intros sid st; simpl.
  - exists st. split; [done|]. by rewrite app_nil_r.
  - unfold gbind at 1.
    destruct (gen_session_log n_stations sid st Hn) as [st1 [E1 L1]]. rewrite E1.
    destruct (IH (sid + 1) st1) as [st2 [E2 L2]]. rewrite E2.
    exists st2. split; [done|]. rewrite L2, L1. by rewrite <- List.app_assoc.
Qed.

Lemma generate_run (csv_path : string) (n_sessions n_stations seed : Z) :
  0 < n_stations ->
  ∃ st : @gstate St,
    g_log st = concat (replicate (Z.to_nat n_sessions) session_draws) ∧
    ∀ w : world St,
      generate_synthetic_data rng_seed randbelow random energy_text lt_09
        csv_path n_sessions n_stations seed w
      = (Ok tt, mk_world (g_rng st) (<[csv_path := g_out st]> (files w)), g_log st).
Proof.
  intros Hn.
  destruct (gen_sessions_log n_stations (Z.to_nat n_sessions) 1
              (mk_gstate (rng_seed seed) [] (String.append EmptyString (csv_line header))) Hn)
    as [st [E L]].
  exists st. split; [exact L|]. intros w.
  unfold generate_synthetic_data, gbind at 1. simpl. rewrite E. reflexivity.
Qed.

(** C2. Two calls of [generate_synthetic_data] with the same arguments
    leave byte-identical contents in the target file, whatever the state
    of the random module and of the file system before each call (in
    particular when the second call follows the first); each session
    draws, in this order, the station, the start day, hour and minute,
    the duration, the energy intensity and the success flag. *)
Theorem generate_synthetic_data_deterministic
    (csv_path : string) (n_sessions n_stations seed : Z) (w1 w2 : world St) :
  0 < n_stations ->
  let run w := generate_synthetic_data rng_seed randbelow random energy_text lt_09
                 csv_path n_sessions n_stations seed w in
  (run w1).1.1 = Ok tt ∧
  files (run w1).1.2 !! csv_path = files (run w2).1.2 !! csv_path ∧
  files (run (run w1).1.2).1.2 !! csv_path = files (run w1).1.2 !! csv_path ∧
  (run w1).2 = concat (replicate (Z.to_nat n_sessions) session_draws).
Proof.
  intros Hn run. unfold run.
  destruct (generate_run csv_path n_sessions n_stations seed Hn) as [st [L E]].
  rewrite !E. simpl. rewrite !lookup_insert_eq. repeat split. exact L.
Qed.
End GeneratorProofs.

(** C2, at a concrete generator: a linear congruential toy state. *)
Lemma generate_synthetic_data_deterministic_witness :
  0 < 5 ∧
  let run w := generate_synthetic_data (λ s : Z, s) (λ n s, (s mod n, s * 7 + 3))
                 (λ s, (s mod 100, s * 7 + 3)) (λ (_ : Z) (_ : Z), "1.5") (λ x, x <? 90)
                 "charging_sessions.csv" 3 5 42 w in
  (run (mk_world 0 ∅)).1.1 = Ok tt ∧
  files (run (mk_world 0 ∅)).1.2 !! "charging_sessions.csv"
    = files (run (mk_world 9 ∅)).1.2 !! "charging_sessions.csv" ∧
  files (run (run (mk_world 0 ∅)).1.2).1.2 !! "charging_sessions.csv"
    = files (run (mk_world 0 ∅)).1.2 !! "charging_sessions.csv" ∧
  (run (mk_world 0 ∅)).2 = concat (replicate (Z.to_nat 3) session_draws).
Proof.
  split; [lia|].
  exact (generate_synthetic_data_deterministic (λ s : Z, s) (λ n s, (s mod n, s * 7 + 3))
           (λ s, (s mod 100, s * 7 + 3)) (λ (_ : Z) (_ : Z), "1.5") (λ x, x <? 90)
           "charging_sessions.csv" 3 5 42 (mk_world 0 ∅) (mk_world 9 ∅) ltac:(lia)).
Defined.

(** ** [populate_dimensions] *)

Lemma unique_elem {A} `{EqDecision A} (l : list A) (x : A) : x ∈ unique l ↔ x ∈ l.
Proof.
  unfold unique. rewrite elem_of_reverse.
  cut (∀ acc, x ∈ foldl (λ acc x, if decide (x ∈ acc) then acc else x :: acc) acc l
              ↔ x ∈ acc ∨ x ∈ l).
  { intros H. rewrite H. set_solver. }
  induction l as [|y l IH]; intros acc; simpl; [set_solver|].
  rewrite IH. case_decide; set_solver.
Qed.

Section InsertOrIgnore.
Context {A V : Type} (key : A -> Z) (val : A -> V) (step : gmap Z V -> A -> gmap Z V).
Hypothesis step_spec : ∀ m a, step m a = insert_or_ignore (key a) (val a) m.

Lemma ioi_keep (l : list A) (m : gmap Z V) (k : Z) (v : V) :
  m !! k = Some v -> foldl step m l !! k = Some v.
Proof.
  revert m. induction l as [|a l IH]; intros m Hm; simpl; [done|].
  apply IH. rewrite step_spec. unfold insert_or_ignore.
  destruct (m !! key a) eqn:E; [done|].
  rewrite lookup_insert_ne; [done|]. intros Hk. rewrite Hk in E. congruence.
Qed.

Lemma ioi_dom (l : list A) (m : gmap Z V) :
  dom (foldl step m l) = dom m ∪ list_to_set (key <$> l).
Proof.
  revert m. induction l as [|a l IH]; intros m; simpl; [set_solver|].
  rewrite IH, step_spec. unfold insert_or_ignore. destruct (m !! key a) eqn:E.
  - assert (key a ∈ dom m) by (apply elem_of_dom; eauto). set_solver.
  - rewrite dom_insert_L. set_solver.
Qed.

End InsertOrIgnore.

Lemma station_keys (df : list row) (k : Z) :
  k ∈ unique (map station_id df) ↔ k ∈ station_id <$> df.
Proof. rewrite unique_elem. by rewrite <- fmap_is_map. Qed.

Lemma date_keys (df : list row) (k : Z) :
  k ∈ fst <$> sort_by_date_key (unique (map (λ r, (date_key r, start_time r)) df))
  ↔ k ∈ date_key <$> df.
Proof.
  unfold sort_by_date_key. rewrite !list_elem_of_fmap. split.
  - intros [p [-> Hp]]. rewrite merge_sort_Permutation, unique_elem, <- fmap_is_map in Hp.
    apply list_elem_of_fmap in Hp as [r [-> Hr]]. by exists r.
  - intros [r [-> Hr]]. exists (date_key r, start_time r). split; [done|].
    rewrite merge_sort_Permutation, unique_elem, <- fmap_is_map.
    apply list_elem_of_fmap. by exists r.
Qed.

Lemma list_to_set_ext (l1 l2 : list Z) :
  (∀ k, k ∈ l1 ↔ k ∈ l2) -> (list_to_set l1 : gset Z) = list_to_set l2.
Proof. intros H. apply set_eq. intros k. rewrite !elem_of_list_to_set. apply H. Qed.

Section InsertEach.
Context {A V : Type} (params : A -> list Z) (key : A -> Z) (val : A -> V).

Lemma ie_fit (m : gmap Z V) (l : list A) :
  (∀ a, a ∈ l -> forallb int64_ok (params a) = true) ->
  insert_each params key val m l
  = (foldl (λ m a, insert_or_ignore (key a) (val a) m) m l, None).
Proof.
  revert m. induction l as [|a l IH]; intros m Hl; simpl; [done|].
  rewrite Hl by set_solver. apply IH. intros b Hb. apply Hl. set_solver.
Qed.

Lemma ie_keep (m : gmap Z V) (l : list A) (k : Z) (v : V) :
  m !! k = Some v -> (insert_each params key val m l).1 !! k = Some v.
Proof.
  revert m. induction l as [|a l IH]; intros m Hm; simpl; [done|].
  destruct (forallb int64_ok (params a)); [|done].
  apply IH. unfold insert_or_ignore. destruct (m !! key a) eqn:E; [done|].
  rewrite lookup_insert_ne; [done|]. intros Hk. rewrite Hk in E. congruence.
Qed.

Lemma ie_forall (P : Z -> V -> Prop) (m : gmap Z V) (l : list A) :
  map_Forall P m -> (∀ a, a ∈ l -> P (key a) (val a)) ->
  map_Forall P (insert_each params key val m l).1.
Proof.
  revert m. induction l as [|a l IH]; intros m Hm Hl; simpl; [done|].
  destruct (forallb int64_ok (params a)); [|done].
  apply IH; [|intros b Hb; apply Hl; set_solver].
  unfold insert_or_ignore. destruct (m !! key a); [done|].
  apply map_Forall_insert_2; [apply Hl; set_solver|done].
Qed.

Lemma ie_err (m : gmap Z V) (l : list A) (e : exn) :
  (insert_each params key val m l).2 = Some e ->
  e = OverflowError ∧ ∃ a, a ∈ l ∧ forallb int64_ok (params a) = false.
Proof.
  revert m. induction l as [|a l IH]; intros m; simpl; [done|].
  destruct (forallb int64_ok (params a)) eqn:E.
  - intros H. apply IH in H as [? [b [? ?]]]. split; [done|].
    exists b. split; [set_solver|done].
  - intros [= <-]. split; [done|]. exists a. split; [set_solver|done].
Qed.
End InsertEach.

Lemma dates_elem (df : list row) (p : Z * Z) :
  p ∈ sort_by_date_key (unique (map (λ r, (date_key r, start_time r)) df)) ↔
  ∃ r, r ∈ df ∧ p = (date_key r, start_time r).
Proof.
  unfold sort_by_date_key. rewrite merge_sort_Permutation, unique_elem, <- fmap_is_map.
  rewrite list_elem_of_fmap. naive_solver.
Qed.

(** With every bound integer in range, [populate_dimensions] is the two
    loops of [INSERT OR IGNORE]. *)
Lemma populate_dimensions_fit (c : conn) (df : list row) :
  dims_fit df = true ->
  populate_dimensions c df =
    (mk_conn (mk_tables
       (foldl (λ m sid, insert_or_ignore sid (station_row sid) m) (dim_station (db c))
          (unique (map station_id df)))
       (foldl (λ m p, insert_or_ignore p.1 (time_row p.2) m) (dim_time (db c))
          (sort_by_date_key (unique (map (λ r, (date_key r, start_time r)) df))))
       (fact_charging (db c))) (foreign_keys c), None).
Proof.
  intros Hfit. unfold dims_fit in Hfit. rewrite forallb_forall in Hfit.
  assert (Hr : ∀ r, r ∈ df ->
            forallb int64_ok (station_params (station_id r)) = true ∧
            forallb int64_ok (date_params (date_key r, start_time r)) = true).
  { intros r Hr. apply list_elem_of_In, Hfit in Hr. rewrite forallb_app in Hr.
    by apply andb_prop in Hr. }
  unfold populate_dimensions. cbv zeta.
  rewrite ie_fit.
  2:{ intros sid Hsid. apply station_keys, list_elem_of_fmap in Hsid as [r [-> Hr']].
      apply (Hr r Hr'). }
  cbv iota. rewrite ie_fit.
  2:{ intros p Hp. apply dates_elem in Hp as [r [Hr' ->]]. apply (Hr r Hr'). }
  reflexivity.
Qed.

(** Whatever it raises, [populate_dimensions] never changes a row that was
    there, leaves the fact table and the [foreign_keys] setting as they
    are, and fails only with [OverflowError], on a record with an integer
    out of range. *)
Lemma populate_dimensions_keep (c : conn) (df : list row) :
  (∀ k v, dim_station (db c) !! k = Some v ->
          dim_station (db (populate_dimensions c df).1) !! k = Some v) ∧
  (∀ k v, dim_time (db c) !! k = Some v ->
          dim_time (db (populate_dimensions c df).1) !! k = Some v) ∧
  fact_charging (db (populate_dimensions c df).1) = fact_charging (db c) ∧
  foreign_keys (populate_dimensions c df).1 = foreign_keys c ∧
  (∀ e, (populate_dimensions c df).2 = Some e -> e = OverflowError ∧ dims_fit df = false).
Proof.
  unfold populate_dimensions. cbv zeta.
  assert (Ks := ie_keep station_params (λ sid, sid) station_row (dim_station (db c))
                  (unique (map station_id df))).
  assert (Es := ie_err station_params (λ sid, sid) station_row (dim_station (db c))
                  (unique (map station_id df))).
  destruct (insert_each station_params (λ sid, sid) station_row (dim_station (db c))
              (unique (map station_id df))) as [ds err]. simpl in Ks, Es.
  assert (Hbad : ∀ r, r ∈ df ->
            forallb int64_ok (station_params (station_id r)) = false ∨
            forallb int64_ok (date_params (date_key r, start_time r)) = false ->
            dims_fit df = false).
  { intros r Hr Hb. apply not_true_iff_false. intros Hfit. unfold dims_fit in Hfit.
    rewrite forallb_forall in Hfit. apply list_elem_of_In, Hfit in Hr.
    rewrite forallb_app in Hr. apply andb_prop in Hr as [H1 H2].
    destruct Hb as [Hb|Hb]; congruence. }
  destruct err as [e|]; simpl.
  - split; [exact Ks|]. split; [done|]. split; [done|]. split; [done|].
    intros e' [= <-]. destruct (Es e eq_refl) as [-> [sid [Hsid Hb]]]. split; [done|].
    apply station_keys, list_elem_of_fmap in Hsid as [r [-> Hr]].
    apply (Hbad r Hr). by left.
  - assert (Kt := ie_keep date_params fst (λ p, time_row p.2) (dim_time (db c))
                    (sort_by_date_key (unique (map (λ r, (date_key r, start_time r)) df)))).
    assert (Et := ie_err date_params fst (λ p, time_row p.2) (dim_time (db c))
                    (sort_by_date_key (unique (map (λ r, (date_key r, start_time r)) df)))).
    destruct (insert_each date_params fst (λ p, time_row p.2) (dim_time (db c))
                (sort_by_date_key (unique (map (λ r, (date_key r, start_time r)) df))))
      as [dt err']. simpl in Kt, Et |- *.
    split; [intros k v Hk; apply (Ks k v Hk)|]. split; [exact Kt|].
    split; [done|]. split; [done|].
    intros e He. destruct (Et e He) as [-> [p [Hp Hb]]]. split; [done|].
    apply dates_elem in Hp as [r [Hr ->]]. apply (Hbad r Hr). by right.
Qed.

(** The rows [populate_dimensions] writes satisfy any property of the rows
    of their keys. *)
Lemma populate_dimensions_forall (Ps : Z -> station_dim -> Prop) (Pt : Z -> time_dim -> Prop)
    (c : conn) (df : list row) :
  map_Forall Ps (dim_station (db c)) -> (∀ r, r ∈ df -> Ps (station_id r) (station_row (station_id r))) ->
  map_Forall Pt (dim_time (db c)) -> (∀ r, r ∈ df -> Pt (date_key r) (time_row (start_time r))) ->
  map_Forall Ps (dim_station (db (populate_dimensions c df).1)) ∧
  map_Forall Pt (dim_time (db (populate_dimensions c df).1)).
Proof.
  intros Hs Hsr Ht Htr. unfold populate_dimensions. cbv zeta.
  assert (Fs := ie_forall station_params (λ sid, sid) station_row Ps (dim_station (db c))
                  (unique (map station_id df)) Hs).
  destruct (insert_each station_params (λ sid, sid) station_row (dim_station (db c))
              (unique (map station_id df))) as [ds err]. simpl in Fs.
  assert (Fs' : map_Forall Ps ds).
  { apply Fs. intros sid Hsid. apply station_keys, list_elem_of_fmap in Hsid as [r [-> Hr]].
    by apply Hsr. }
  destruct err as [e|]; simpl; [done|].
  assert (Ft := ie_forall date_params fst (λ p, time_row p.2) Pt (dim_time (db c))
                  (sort_by_date_key (unique (map (λ r, (date_key r, start_time r)) df))) Ht).
  destruct (insert_each date_params fst (λ p, time_row p.2) (dim_time (db c))
              (sort_by_date_key (unique (map (λ r, (date_key r, start_time r)) df))))
    as [dt err']. simpl in Ft |- *. split; [done|].
  apply Ft. intros p Hp. apply dates_elem in Hp as [r [Hr ->]]. by apply Htr.
Qed.



(** ** [populate_fact] *)

Lemma insert_fact_Ok (c c' : conn) (r : row) :
  insert_fact c r = Ok c' ->
  c' = mk_conn (mk_tables (dim_station (db c)) (dim_time (db c))
                 (<[session_id r := fact_of r]> (fact_charging (db c)))) (foreign_keys c).
Proof.
  unfold insert_fact. destruct (forallb int64_ok (fact_params r)); cbn [negb]; [|done].
  case_match; [done|]. by intros [= <-].
Qed.

Lemma populate_fact_Ok (c c' : conn) (df : list row) :
  populate_fact c df = Ok c' ->
  c' = mk_conn (mk_tables (dim_station (db c)) (dim_time (db c))
                 (upsert_all (fact_charging (db c)) df)) (foreign_keys c).
Proof.
  unfold upsert_all. revert c. induction df as [|r df IH]; intros c; simpl.
  - intros [= <-]. by destruct c as [[? ? ?] ?].
  - destruct (insert_fact c r) as [c1|e] eqn:E; [|done].
    intros H. apply IH in H. apply insert_fact_Ok in E. subst c1. exact H.
Qed.

(** With [foreign_keys] off, [populate_fact] stores the batch when every
    integer it binds is in range, and raises [OverflowError] otherwise. *)
Lemma populate_fact_fk_off (c : conn) (df : list row) :
  foreign_keys c = false ->
  populate_fact c df
  = if ids_fit df
    then Ok (mk_conn (mk_tables (dim_station (db c)) (dim_time (db c))
                        (upsert_all (fact_charging (db c)) df)) false)
    else Raise OverflowError.
Proof.
  unfold upsert_all, ids_fit. revert c. induction df as [|r df IH]; intros c Hfk.
  - destruct c as [[? ? ?] ?]. simpl in *. by subst.
  - cbn [populate_fact forallb]. unfold insert_fact at 1. cbv zeta.
    destruct (forallb int64_ok (fact_params r)); cbn [negb andb]; [|done].
    rewrite Hfk. cbn [andb]. rewrite IH by reflexivity. reflexivity.
Qed.

Lemma upsert_all_others (m : gmap Z fact) (df : list row) (k : Z) :
  Forall (λ r, session_id r ≠ k) df -> upsert_all m df !! k = m !! k.
Proof.
  unfold upsert_all. revert m. induction df as [|r df IH]; intros m Hdf; simpl; [done|].
  inversion Hdf; subst. rewrite IH by done. by rewrite lookup_insert_ne.
Qed.

Lemma upsert_all_last (m : gmap Z fact) (df : list row) (r : row) :
  last_of_session r df -> upsert_all m df !! session_id r = Some (fact_of r).
Proof.
  intros (pre & post & -> & Hpost). unfold upsert_all. rewrite foldl_app. simpl.
  fold (upsert_all (<[session_id r := fact_of r]> (foldl (λ m r, <[session_id r := fact_of r]> m) m pre)) post).
  rewrite upsert_all_others by done. apply lookup_insert_eq.
Qed.

(** C7. [populate_fact] upserts by session identifier: after a first batch
    and a second one, the row of a session of the second batch (its last
    record, when it has several) is that record, all fields replaced; the
    rows of the sessions the second batch does not name are those the
    first load left. *)
Theorem populate_fact_upserts (c c1 c2 : conn) (b1 b2 : list row) (r : row) :
  populate_fact c b1 = Ok c1 -> populate_fact c1 b2 = Ok c2 -> last_of_session r b2 ->
  fact_charging (db c2) !! session_id r = Some (fact_of r) ∧
  (∀ k, k ∉ session_id <$> b2 -> fact_charging (db c2) !! k = fact_charging (db c1) !! k).
Proof.
  intros _ H2 Hr. apply populate_fact_Ok in H2. subst c2. simpl. split.
  - by apply upsert_all_last.
  - intros k Hk. apply upsert_all_others. apply Forall_forall. intros r' Hr' E.
    apply Hk. subst k. by apply list_elem_of_fmap_2.
Qed.

(** C7, on the spec's example: session 7 loaded with energy 10, then
    re-loaded with energy 20. *)
Lemma populate_fact_upserts_witness :
  ∃ c1 c2,
    populate_fact (create_database empty_tables)
      [mk_row 7 1 0 0 10%Q 1 (1 # 2) 20250101] = Ok c1 ∧
    populate_fact c1 [mk_row 7 1 0 0 20%Q 1 (1 # 2) 20250101] = Ok c2 ∧
    last_of_session (mk_row 7 1 0 0 20%Q 1 (1 # 2) 20250101)
      [mk_row 7 1 0 0 20%Q 1 (1 # 2) 20250101] ∧
    fact_charging (db c2) !! 7 = Some (mk_fact 1 20250101 20%Q (1 # 2) 1).
Proof.
  eexists _, _. split; [reflexivity|]. split; [reflexivity|].
  assert (Hl : last_of_session (mk_row 7 1 0 0 20%Q 1 (1 # 2) 20250101)
                 [mk_row 7 1 0 0 20%Q 1 (1 # 2) 20250101])
    by (exists [], []; split; [done|constructor]).
  split; [exact Hl|].
  exact (proj1 (populate_fact_upserts (create_database empty_tables) _ _
                  [mk_row 7 1 0 0 10%Q 1 (1 # 2) 20250101]
                  [mk_row 7 1 0 0 20%Q 1 (1 # 2) 20250101] _ eq_refl eq_refl Hl)).
Defined.



(** ** Joins *)

Section Join.
Context {A B : Type} (k : Z) (h : Z * A -> list B) (g : Z * A -> B).
Hypothesis h_spec : ∀ x, h x = if decide (k = x.1) then [g x] else [].

Lemma bind_key_notin (l : list (Z * A)) : k ∉ l.*1 -> l ≫= h = [].
Proof.
  induction l as [|x l IH]; intros Hk; simpl; [done|].
  rewrite h_spec. case_decide as E.
  - exfalso. apply Hk. rewrite E. simpl. set_solver.
  - apply IH. set_solver.
Qed.

Lemma bind_key_in (l : list (Z * A)) (a : A) :
  NoDup l.*1 -> (k, a) ∈ l -> l ≫= h = [g (k, a)].
Proof.
  induction l as [|[k' a'] l IH]; intros Hnd Hin; [set_solver|].
  simpl. rewrite h_spec. simpl. inversion Hnd as [|? ? Hnot Hnd']; subst.
  apply elem_of_cons in Hin as [[= Ek Ea]|Hin].
  - subst k' a'. rewrite decide_True by done. rewrite bind_key_notin by done. done.
  - assert (k ∈ l.*1) by (apply list_elem_of_fmap; by exists (k, a)).
    rewrite decide_False by (intros ->; done). apply IH; done.
Qed.

Lemma map_bind_key (m : gmap Z A) :
  map_to_list m ≫= h = match m !! k with Some a => [g (k, a)] | None => [] end.
Proof.
  destruct (m !! k) as [a|] eqn:E.
  - apply bind_key_in; [apply NoDup_fst_map_to_list|]. by apply elem_of_map_to_list.
  - apply bind_key_notin. intros Hk. apply list_elem_of_fmap in Hk as [[k' a] [Ek Hin]].
    apply elem_of_map_to_list in Hin. simpl in Ek, Hin. subst k'. congruence.
Qed.
End Join.

Lemma filter_ne_nil {A} (P : A -> Prop) `{∀ x, Decision (P x)} (l : list A) :
  filter P l ≠ [] ↔ ∃ x, x ∈ l ∧ P x.
Proof.
  split.
  - intros Hne. destruct (filter P l) as [|y ys] eqn:E; [done|].
    assert (Hy : y ∈ filter P l) by (rewrite E; set_solver).
    apply list_elem_of_filter in Hy as [? ?]. eauto.
  - intros [x [Hx Px]] E. assert (Hx' : x ∈ filter P l) by (by apply list_elem_of_filter).
    rewrite E in Hx'. set_solver.
Qed.

Lemma filter_all {A} (P : A -> Prop) `{∀ x, Decision (P x)} (l : list A) :
  (∀ x, x ∈ l -> P x) -> filter P l = l.
Proof.
  induction l as [|x l IH]; intros Hl; [done|]. rewrite filter_cons.
  rewrite decide_True by (apply Hl; set_solver). f_equal. apply IH. set_solver.
Qed.

Lemma fmap_snd_ne_nil {A B} (l : list (A * B)) : l.*2 ≠ [] ↔ l ≠ [].
Proof. destruct l; simpl; split; done. Qed.

(** ** [compute_time_series] *)

Global Instance text_le_total : Total text_le.
Proof. intros s1 s2. unfold text_le. apply String.leb_total. Qed.

Global Instance text_le_trans : Transitive text_le.
Proof.
  intros s1 s2 s3 H1 H2. unfold text_le in *.
  pose proof (@transitivity _ String.le _ s1 s2 s3) as T.
  unfold String.le in T. rewrite H1, H2 in T. destruct (String.leb s1 s3); [done|].
  by destruct T.
Qed.

Lemma join_time_eq (t : tables) :
  join_time t = fact_rows t ≫= λ f,
    match dim_time t !! time_id f with Some tm => [(date tm, f)] | None => [] end.
Proof.
  unfold join_time. induction (fact_rows t) as [|f fs IH]; [done|].
  rewrite !bind_cons, IH. cbv beta. f_equal.
  apply (map_bind_key (time_id f) _ (λ x, (date x.2, f))). intros x. reflexivity.
Qed.

Lemma join_time_group (t : tables) (d : string) :
  (filter (λ p, p.1 = d) (join_time t)).*2 = date_group t d.
Proof.
  rewrite join_time_eq. unfold date_group. induction (fact_rows t) as [|f fs IH]; [done|].
  rewrite bind_cons, filter_app, fmap_app, IH, filter_cons. cbv beta.
  destruct (dim_time t !! time_id f) as [tm|]; simpl; [|done].
  rewrite (filter_cons (λ p : string * fact, p.1 = d)), filter_nil. simpl.
  destruct (decide (date tm = d)) as [E|E].
  - rewrite decide_True by (by rewrite E). simpl. reflexivity.
  - rewrite decide_False by (intros [= ?]; done). simpl. reflexivity.
Qed.

Lemma daily_rows_elem (l : list (string * fact)) (x : daily) :
  x ∈ map daily_of (order_by text_le (group_by l))
  ↔ ∃ a, group_by l !! daily_date x = Some a ∧ x = daily_of (daily_date x, a).
Proof.
  rewrite <- fmap_is_map, list_elem_of_fmap. split.
  - intros [[s a] [-> Hp]]. apply order_by_elem in Hp; [|apply _..]. by exists a.
  - intros [a [Ha Hx]]. exists (daily_date x, a). split; [done|].
    apply order_by_elem; [apply _..|]. done.
Qed.

Lemma daily_rows_keys (l : list (string * fact)) :
  map daily_date (map daily_of (order_by text_le (group_by l)))
  = (order_by text_le (group_by l)).*1.
Proof. rewrite (fmap_is_map fst), List.map_map. reflexivity. Qed.

(** C9. [compute_time_series] has one row per calendar date that some
    fact row reaches through the [time_id] join, in strictly ascending
    order of the date column (SQLite's text order on it); the row of a
    date averages [energy_kwh] and [duration_hours] over all the fact
    rows of that date, whatever their station. *)
Theorem compute_time_series_groups_by_date (c : conn) :
  StronglySorted (λ a b, text_le a b ∧ a ≠ b) (map daily_date (compute_time_series c)) ∧
  (∀ d, d ∈ map daily_date (compute_time_series c) ↔ date_group (db c) d ≠ []) ∧
  (∀ x, x ∈ compute_time_series c ->
     let g := date_group (db c) (daily_date x) in
     g ≠ [] ∧
     (avg_energy x == sumQ (map fact_energy_kwh g) / inject_Z (Z.of_nat (length g)))%Q ∧
     (avg_duration x == sumQ (map fact_duration_hours g) / inject_Z (Z.of_nat (length g)))%Q).
Proof.
  unfold compute_time_series. split; [|split].
  - rewrite daily_rows_keys. apply order_by_strict; apply _.
  - intros d. rewrite daily_rows_keys, <- join_time_group, fmap_snd_ne_nil,
      filter_ne_nil, <- group_by_is_Some.
    rewrite list_elem_of_fmap. split.
    + intros [[d' a] [-> Hp]]. apply order_by_elem in Hp; [|apply _..]. by exists a.
    + intros [a Ha]. exists (d, a). split; [done|]. apply order_by_elem; [apply _..|]. done.
  - intros x Hx. apply daily_rows_elem in Hx as [a [Ha Hx]].
    apply group_by_Some in Ha as [Hne Ha].
    rewrite join_time_group in Ha.
    rewrite <- fmap_snd_ne_nil, join_time_group in Hne.
    destruct (agg_of_fields (date_group (db c) (daily_date x))) as (H1 & _ & H3 & H4).
    rewrite Hx. simpl. rewrite Ha, H1, H3, H4. split; [done|]. split; reflexivity.
Qed.

(** ** [load_kpis] against [compute_kpis] *)

Lemma join_station_eq (t : tables) :
  join_station t = map (λ f, (fact_station_id f, f)) (joined_facts t).
Proof.
  unfold join_station, joined_facts. induction (fact_rows t) as [|f fs IH]; [done|].
  rewrite bind_cons, IH, filter_cons. cbv beta.
  rewrite (map_bind_key (fact_station_id f) _ (λ x, (x.1, f))) by (intros; reflexivity).
  destruct (dim_station t !! fact_station_id f) as [s|]; simpl; done.
Qed.

Lemma compute_kpis_total (c : conn) (k : kpi) :
  k ∈ compute_kpis c ->
  total_sessions k = Z.of_nat (length (station_group (db c) (kpi_station_id k))).
Proof.
  rewrite compute_kpis_unfold. intros Hk.
  apply kpi_rows_elem in Hk as [a [Ha Hk]].
  apply group_by_Some in Ha as [_ Ha].
  rewrite filter_tagged in Ha. rewrite Hk. simpl. rewrite Ha.
  apply agg_of_fields.
Qed.

(** C10. The dashboard's [load_kpis] is [compute_kpis] over the fact rows
    whose station is in [dim_station]: the same result when every fact
    row's station is there; a fact row whose station is missing from
    [dim_station] is counted by [compute_kpis] in the row of its station,
    and that station has no row in [load_kpis]. *)
Theorem load_kpis_refines_compute_kpis (c : conn) :
  load_kpis (db c) = kpi_rows (map (λ f, (fact_station_id f, f)) (joined_facts (db c))) ∧
  ((∀ f, f ∈ fact_rows (db c) -> is_Some (dim_station (db c) !! fact_station_id f)) ->
     load_kpis (db c) = compute_kpis c) ∧
  (∀ f, f ∈ fact_rows (db c) -> dim_station (db c) !! fact_station_id f = None ->
     (∃ k, k ∈ compute_kpis c ∧ kpi_station_id k = fact_station_id f ∧
           f ∈ station_group (db c) (kpi_station_id k) ∧
           total_sessions k = Z.of_nat (length (station_group (db c) (kpi_station_id k)))) ∧
     fact_station_id f ∉ map kpi_station_id (load_kpis (db c))).
Proof.
  assert (E : load_kpis (db c)
              = kpi_rows (map (λ f, (fact_station_id f, f)) (joined_facts (db c))))
    by (unfold load_kpis; by rewrite join_station_eq).
  split; [exact E|]. split.
  - intros Hall. rewrite E, compute_kpis_unfold. unfold joined_facts.
    by rewrite filter_all.
  - intros f Hf Hnone. split.
    + assert (Hs : fact_station_id f ∈ map kpi_station_id (compute_kpis c)).
      { rewrite compute_kpis_unfold, kpi_rows_keys_elem.
        exists (fact_station_id f, f). split; [|done].
        rewrite <- fmap_is_map. by apply (list_elem_of_fmap_2 (λ f, (fact_station_id f, f))). }
      rewrite <- fmap_is_map in Hs. apply list_elem_of_fmap in Hs as [k [Hk Hin]].
      exists k. split; [done|]. split; [done|]. split.
      * rewrite <- Hk. by apply list_elem_of_filter.
      * by apply compute_kpis_total.
    + rewrite E, kpi_rows_keys_elem. intros [p [Hp Hp1]].
      rewrite <- fmap_is_map in Hp. apply list_elem_of_fmap in Hp as [f' [-> Hf']].
      unfold joined_facts in Hf'. apply list_elem_of_filter in Hf' as [[s Hs] _].
      simpl in Hp1. rewrite Hp1 in Hs. congruence.
Qed.

(** ** Further properties: [process_data], the load stage and the dashboard *)

Lemma Forall2_elem_r {A B} (P : A -> B -> Prop) (l1 : list A) (l2 : list B) (y : B) :
  Forall2 P l1 l2 -> y ∈ l2 -> ∃ x, x ∈ l1 ∧ P x y.
Proof.
  induction 1 as [|x y' l1 l2 Hxy _ IH]; intros Hy; [set_solver|].
  apply elem_of_cons in Hy as [->|Hy]; [exists x; set_solver|].
  destruct (IH Hy) as [x' [? ?]]. exists x'. set_solver.
Qed.

Lemma key_digits (y m d : Z) :
  0 <= y -> 0 <= m < 100 -> 0 <= d < 100 ->
  (y * 10000 + m * 100 + d) / 10000 = y ∧
  ((y * 10000 + m * 100 + d) / 100) mod 100 = m ∧
  (y * 10000 + m * 100 + d) mod 100 = d.
Proof.
  intros Hy Hm Hd.
  assert (E : (y * 10000 + m * 100 + d) / 100 = y * 100 + m)
    by (symmetry; apply Z.div_unique with d; [left; lia|ring]).
  split; [|split].
  - symmetry. apply Z.div_unique with (m * 100 + d); [left; lia|ring].
  - rewrite E. symmetry. apply Z.mod_unique with y; [left; lia|ring].
  - symmetry. apply Z.mod_unique with (y * 100 + m); [left; lia|ring].
Qed.

(** What a record of [process_data] keeps of its start timestamp. *)
Lemma process_data_start (rows : list raw_row) (df : list row) (o : row) :
  process_data rows = Ok df -> o ∈ df ->
  ∃ f, valid_date (f_year f) (f_month f) (f_day f) = true ∧ 0 <= f_year f <= 9999 ∧
       0 <= f_hour f < 24 ∧ 0 <= f_minute f < 60 ∧
       start_time o = ns_of_fields f ∧
       date_key o = f_year f * 10000 + f_month f * 100 + f_day f.
Proof.
  intros Hp Ho. destruct (Forall2_elem_r _ _ _ _ (process_data_Ok _ _ Hp) Ho)
    as [r [_ (Hs & _ & Hk & _)]].
  apply parse_ts_Some in Hs as (f & _ & V & Hy & Hh & Hm & Ht).
  exists f. rewrite Ht, date_key_of_fields in Hk by done. injection Hk as Hk.
  repeat split; try done; lia.
Qed.

Lemma valid_date_bounds (y m d : Z) :
  valid_date y m d = true -> 1 <= m <= 12 ∧ 1 <= d <= 31.
Proof.
  unfold valid_date. rewrite !andb_true_iff, !Z.leb_le.
  pose proof (days_in_month_le y m). lia.
Qed.

Lemma start_day (f : ts_fields) :
  valid_date (f_year f) (f_month f) (f_day f) = true ->
  0 <= f_hour f < 24 -> 0 <= f_minute f < 60 ->
  date_of (ns_of_fields f) = (f_year f, f_month f, f_day f).
Proof.
  intros V Hh Hm. unfold date_of. rewrite ns_of_fields_day by done.
  by apply civil_from_days_roundtrip.
Qed.

(** X2. Two records of one successful [process_data] batch get the same
    [date_key] exactly when their start instants fall on the same calendar
    day. *)
Theorem process_data_same_day (rows : list raw_row) (df : list row) (o1 o2 : row) :
  process_data rows = Ok df -> o1 ∈ df -> o2 ∈ df ->
  date_key o1 = date_key o2 ↔ date_of (start_time o1) = date_of (start_time o2).
Proof.
  intros Hp H1 H2.
  destruct (process_data_start _ _ _ Hp H1) as (f1 & V1 & Y1 & Hh1 & Hm1 & T1 & K1).
  destruct (process_data_start _ _ _ Hp H2) as (f2 & V2 & Y2 & Hh2 & Hm2 & T2 & K2).
  rewrite T1, T2, K1, K2, !start_day by done.
  apply valid_date_bounds in V1, V2.
  destruct (key_digits (f_year f1) (f_month f1) (f_day f1)) as (A1 & B1 & C1); [lia..|].
  destruct (key_digits (f_year f2) (f_month f2) (f_day f2)) as (A2 & B2 & C2); [lia..|].
  split.
  - intros E. rewrite E in A1, B1, C1. congruence.
  - intros [= -> -> ->]. done.
Qed.

Section IoiForall.
Context {A V : Type} (key : A -> Z) (val : A -> V) (step : gmap Z V -> A -> gmap Z V).
Hypothesis step_spec : ∀ m a, step m a = insert_or_ignore (key a) (val a) m.

Lemma ioi_forall (P : Z -> V -> Prop) (l : list A) (m : gmap Z V) :
  map_Forall P m -> Forall (λ a, P (key a) (val a)) l -> map_Forall P (foldl step m l).
Proof.
  revert m. induction l as [|a l IH]; intros m Hm Hl; simpl; [done|].
  inversion Hl; subst. apply IH; [|done]. rewrite step_spec. unfold insert_or_ignore.
  destruct (m !! key a); [done|]. by apply map_Forall_insert_2.
Qed.
End IoiForall.

Lemma time_row_key (rows : list raw_row) (df : list row) (o : row) :
  process_data rows = Ok df -> o ∈ df -> time_row (start_time o) = key_time_row (date_key o).
Proof.
  intros Hp Ho. destruct (process_data_start _ _ _ Hp Ho) as (f & V & Y & Hh & Hm & T & K).
  unfold time_row. rewrite T, start_day by done.
  apply valid_date_bounds in V as Vb.
  destruct (key_digits (f_year f) (f_month f) (f_day f)) as (A1 & B1 & C1); [lia..|].
  unfold key_time_row. rewrite K, A1, B1, C1. f_equal. f_equal. f_equal.
  by apply ns_of_fields_day.
Qed.

Lemma key_time_row_month (k : Z) : month (key_time_row k) = (k / 100) mod 100.
Proof. reflexivity. Qed.

Lemma key_time_row_year (k : Z) : year (key_time_row k) = k / 10000.
Proof. reflexivity. Qed.

(** On records of [process_data], the month and year bound for [dim_time]
    are in range when the date key is. *)
Lemma process_data_dims_fit (rows : list raw_row) (df : list row) :
  process_data rows = Ok df -> ids_fit df = true -> dims_fit df = true.
Proof.
  intros Hp Hfit. unfold ids_fit, dims_fit in *. rewrite forallb_forall in Hfit |- *.
  intros r Hr. specialize (Hfit r Hr). apply list_elem_of_In in Hr.
  pose proof (time_row_key rows df r Hp Hr) as T.
  unfold date_params, station_params. cbn [fst snd].
  rewrite T, key_time_row_month, key_time_row_year.
  unfold fact_params in Hfit. cbn [forallb app] in Hfit |- *.
  unfold int64_ok in *. rewrite ?andb_true_iff, ?Z.leb_le, ?Z.ltb_lt in *.
  destruct Hfit as (_ & S & K & _).
  repeat split; try tauto; Z.div_mod_to_equations; lia.
Qed.


(** X3. On records of [process_data], [populate_dimensions] keeps the
    dimension tables consistent with their keys: if every [dim_station] row
    is the [Station k]/[Location k] row of its key and every [dim_time] row
    is the row of the date its YYYYMMDD key encodes, the same holds after
    the call, also when the call stops with an exception. *)
Theorem populate_dimensions_rows_by_key (c : conn) (rows : list raw_row) (df : list row) :
  process_data rows = Ok df ->
  stations_by_key (dim_station (db c)) -> times_by_key (dim_time (db c)) ->
  stations_by_key (dim_station (db (populate_dimensions c df).1)) ∧
  times_by_key (dim_time (db (populate_dimensions c df).1)).
Proof.
  intros Hp Hs Ht. apply populate_dimensions_forall; [done|done|done|].
  intros r Hr. by apply (time_row_key rows df).
Qed.

Lemma upsert_all_dom (m : gmap Z fact) (df : list row) :
  dom (upsert_all m df) = dom m ∪ list_to_set (session_id <$> df).
Proof.
  unfold upsert_all. revert m. induction df as [|r df IH]; intros m; simpl; [set_solver|].
  rewrite IH, dom_insert_L. set_solver.
Qed.

Lemma upsert_all_lookup (m : gmap Z fact) (df : list row) (k : Z) (f : fact) :
  upsert_all m df !! k = Some f ->
  m !! k = Some f ∨ ∃ r, r ∈ df ∧ session_id r = k ∧ f = fact_of r.
Proof.
  unfold upsert_all. revert m. induction df as [|r df IH]; intros m Hk; simpl in *; [by left|].
  destruct (IH _ Hk) as [Hm|[r' [? ?]]]; [|right; exists r'; set_solver].
  destruct (decide (session_id r = k)) as [<-|Hne].
  - rewrite lookup_insert_eq in Hm. injection Hm as <-. right. exists r. set_solver.
  - rewrite lookup_insert_ne in Hm by done. by left.
Qed.

Lemma sumZ_app (l1 l2 : list Z) : sumZ (l1 ++ l2) = sumZ l1 + sumZ l2.
Proof. induction l1; simpl; [lia|]. unfold sumZ in *. simpl. lia. Qed.

Lemma sumZ_perm (l1 l2 : list Z) : l1 ≡ₚ l2 -> sumZ l1 = sumZ l2.
Proof. unfold sumZ. induction 1; simpl; lia. Qed.

Lemma group_sizes (l : list (Z * fact)) :
  sumZ (map (λ p, n_rows p.2) (map_to_list (group_by l))) = Z.of_nat (length l).
Proof.
  unfold group_by. induction l as [|x l IH] using rev_ind.
  - simpl. rewrite map_to_list_empty. reflexivity.
  - rewrite foldl_app, length_app. simpl.
    set (g := foldl (λ m p, <[p.1 := agg_step (default agg0 (m !! p.1)) p.2]> m) ∅ l) in *.
    destruct (g !! x.1) as [a|] eqn:E.
    + rewrite <- insert_delete_eq.
      rewrite (sumZ_perm _ _ (Permutation_map _ (map_to_list_insert (delete x.1 g) _ _ (lookup_delete_eq g x.1)))).
      pose proof (sumZ_perm _ _ (Permutation_map (λ p, n_rows p.2) (map_to_list_delete g x.1 a E))) as D.
      simpl in D |- *. unfold sumZ in *. simpl in *. lia.
    + rewrite (sumZ_perm _ _ (Permutation_map _ (map_to_list_insert _ _ _ E))).
      unfold sumZ in *. simpl in *. lia.
Qed.

Lemma kpi_rows_total (l : list (Z * fact)) :
  sumZ (map total_sessions (kpi_rows l)) = Z.of_nat (length l).
Proof.
  unfold kpi_rows. rewrite List.map_map. simpl.
  rewrite <- group_sizes. apply sumZ_perm. unfold order_by.
  apply Permutation_map. apply merge_sort_Permutation.
Qed.

(** X5. The [total_sessions] of [compute_kpis] add up to the number of
    fact rows (the KPI table is empty exactly when the fact table is), and
    those of the dashboard's [load_kpis] add up to the number of fact rows
    whose station has a [dim_station] row. *)
Theorem kpis_count_every_fact (c : conn) :
  sumZ (map total_sessions (compute_kpis c)) = Z.of_nat (size (fact_charging (db c))) ∧
  (compute_kpis c = [] ↔ fact_charging (db c) = ∅) ∧
  sumZ (map total_sessions (load_kpis (db c))) = Z.of_nat (length (joined_facts (db c))).
Proof.
  assert (Hc : sumZ (map total_sessions (compute_kpis c)) = Z.of_nat (size (fact_charging (db c)))).
  { rewrite compute_kpis_unfold, kpi_rows_total, length_map. unfold fact_rows.
    rewrite length_fmap, length_map_to_list. done. }
  split; [exact Hc|]. split.
  - split.
    + intros E. rewrite E in Hc. simpl in Hc. apply map_size_empty_iff. lia.
    + intros E. rewrite compute_kpis_unfold. unfold fact_rows. rewrite E, map_to_list_empty. done.
  - unfold load_kpis. rewrite join_station_eq, kpi_rows_total, length_map. done.
Qed.

(** X4. When [populate_fact] succeeds, the fact table's keys are the old
    keys plus the session ids of the batch, every fact row is either an old
    row or the record of a batch row with that session id, and the dimension
    tables and the [foreign_keys] setting are unchanged. *)
Theorem populate_fact_rows (c c' : conn) (df : list row) :
  populate_fact c df = Ok c' ->
  dom (fact_charging (db c')) = dom (fact_charging (db c)) ∪ list_to_set (session_id <$> df) ∧
  (∀ k f, fact_charging (db c') !! k = Some f ->
     fact_charging (db c) !! k = Some f ∨ ∃ r, r ∈ df ∧ session_id r = k ∧ f = fact_of r) ∧
  dim_station (db c') = dim_station (db c) ∧ dim_time (db c') = dim_time (db c) ∧
  foreign_keys c' = foreign_keys c.
Proof.
  intros H. apply populate_fact_Ok in H. subst c'. simpl.
  split; [apply upsert_all_dom|]. split; [|done].
  intros k f. apply upsert_all_lookup.
Qed.

Lemma upsert_all_last_of (m : gmap Z fact) (df : list row) (k : Z) (f : fact) :
  m = ∅ -> upsert_all m df !! k = Some f ->
  ∃ r, last_of_session r df ∧ session_id r = k ∧ f = fact_of r.
Proof.
  intros ->. unfold upsert_all. induction df as [|r df IH] using rev_ind; simpl.
  - by rewrite lookup_empty.
  - rewrite foldl_app. simpl. destruct (decide (session_id r = k)) as [<-|Hne].
    + rewrite lookup_insert_eq. intros [= <-]. exists r. split; [|done].
      exists df, []. split; [done|constructor].
    + rewrite lookup_insert_ne by done. intros Hk.
      destruct (IH Hk) as (r' & (pre & post & E & Hpost) & Hr' & Hf).
      exists r'. split; [|done]. exists pre, (post ++ [r]). split.
      * rewrite E. by rewrite <- app_assoc.
      * apply Forall_app. split; [done|]. constructor; [|constructor]. congruence.
Qed.

Lemma last_of_session_elem (r : row) (df : list row) : last_of_session r df -> r ∈ df.
Proof. intros (pre & post & -> & _). set_solver. Qed.

Lemma date_time_row (t : Z) : date (time_row t) = day_text t.
Proof. unfold time_row, day_text. by destruct (date_of t) as [[y m] d]. Qed.

(** The store [main] builds from the records [df], when the integers they
    bind are in range. *)
Lemma main_load_store (rows : list raw_row) (df : list row) :
  process_data rows = Ok df -> ids_fit df = true ->
  ∃ c, main_load rows = Ok (c, compute_kpis c) ∧
  fact_charging (db c) = upsert_all ∅ df ∧
  dom (dim_station (db c)) = list_to_set (station_id <$> df) ∧
  dom (dim_time (db c)) = list_to_set (date_key <$> df) ∧
  stations_by_key (dim_station (db c)) ∧ times_by_key (dim_time (db c)).
Proof.
  intros Hp Hfit.
  set (fs := λ (m : gmap Z station_dim) (sid : Z), insert_or_ignore sid (station_row sid) m).
  set (ft := λ (m : gmap Z time_dim) (p : Z * Z), insert_or_ignore p.1 (time_row p.2) m).
  set (dates := sort_by_date_key (unique (map (λ r, (date_key r, start_time r)) df))).
  exists (mk_conn (mk_tables (foldl fs ∅ (unique (map station_id df))) (foldl ft ∅ dates)
                    (upsert_all ∅ df)) false).
  cbn [db dim_station dim_time fact_charging].
  split; [|split; [done|split; [|split; [|split]]]].
  - unfold main_load. rewrite Hp. cbv zeta.
    rewrite (populate_dimensions_fit _ _ (process_data_dims_fit rows df Hp Hfit)). cbv iota.
    rewrite populate_fact_fk_off by reflexivity. rewrite Hfit. reflexivity.
  - rewrite (ioi_dom (λ sid, sid) station_row fs) by reflexivity.
    rewrite dom_empty_L, union_empty_l_L. apply list_to_set_ext. intros k.
    rewrite list_fmap_id. apply station_keys.
  - rewrite (ioi_dom fst (λ p, time_row p.2) ft) by reflexivity.
    rewrite dom_empty_L, union_empty_l_L. apply list_to_set_ext. intros k. apply date_keys.
  - apply (ioi_forall (λ sid, sid) station_row); [reflexivity|apply map_Forall_empty|].
    apply Forall_forall. done.
  - apply (ioi_forall fst (λ p, time_row p.2)); [reflexivity|apply map_Forall_empty|].
    apply Forall_forall. intros [k t] Hkt. simpl.
    unfold dates in Hkt. apply dates_elem in Hkt as [o [Ho [= -> ->]]].
    by apply (time_row_key rows df).
Qed.

(** When [main]'s load stage succeeds, the integers of the records are in
    range. *)
Lemma main_load_ids_fit (rows : list raw_row) (df : list row) (x : conn * list kpi) :
  process_data rows = Ok df -> main_load rows = Ok x -> ids_fit df = true.
Proof.
  intros Hp. unfold main_load. rewrite Hp. cbv zeta.
  pose proof (populate_dimensions_keep (create_database empty_tables) df) as (_ & _ & _ & Hfk & _).
  destruct (populate_dimensions (create_database empty_tables) df) as [c1 [e1|]];
    simpl in Hfk; [intros H; discriminate H|].
  rewrite populate_fact_fk_off by exact Hfk. destruct (ids_fit df); [done|intros H; discriminate H].
Qed.

Lemma fact_rows_lookup (t : tables) (f : fact) :
  f ∈ fact_rows t ↔ ∃ k, fact_charging t !! k = Some f.
Proof.
  unfold fact_rows. rewrite list_elem_of_fmap. split.
  - intros [[k f'] [-> Hk]]. apply elem_of_map_to_list in Hk. by exists k.
  - intros [k Hk]. exists (k, f). split; [done|]. by apply elem_of_map_to_list.
Qed.



Lemma series_dates (t : tables) (d : string) :
  d ∈ map daily_date (load_time_series t) ↔
  ∃ f tm, f ∈ fact_rows t ∧ dim_time t !! time_id f = Some tm ∧ date tm = d.
Proof.
  unfold load_time_series. rewrite daily_rows_keys, list_elem_of_fmap.
  transitivity (is_Some (group_by (join_time t) !! d)).
  { split.
    - intros [[d' a] [-> Hp]]. apply order_by_elem in Hp; [|apply _..]. by exists a.
    - intros [a Ha]. exists (d, a). split; [done|]. apply order_by_elem; [apply _..|]. done. }
  rewrite group_by_is_Some, join_time_eq. split.
  - intros [p [Hp <-]]. apply list_elem_of_bind in Hp as [f [Hp Hf]].
    destruct (dim_time t !! time_id f) as [tm|] eqn:E; [|set_solver].
    assert (p = (date tm, f)) as -> by set_solver. by exists f, tm.
  - intros (f & tm & Hf & E & <-). exists (date tm, f). split; [|done].
    apply list_elem_of_bind. exists f. split; [rewrite E; set_solver|done].
Qed.

(** X8. After [main]'s load stage, the dates of the dashboard's
    [load_time_series] are exactly the start days of the sessions whose
    record is the last one of its session id in the batch. *)
Theorem main_load_time_series (rows : list raw_row) (df : list row) (c : conn) (ks : list kpi) :
  process_data rows = Ok df -> main_load rows = Ok (c, ks) ->
  ∀ d, d ∈ map daily_date (load_time_series (db c)) ↔
       ∃ o, last_of_session o df ∧ d = day_text (start_time o).
Proof.
  intros Hp Hm d. pose proof (main_load_ids_fit rows df _ Hp Hm) as Hfit.
  destruct (main_load_store rows df Hp Hfit) as (c' & Hm' & Hfc & Hds & Hdt & _ & Htk).
  rewrite Hm' in Hm. injection Hm as <- _.
  rewrite series_dates. split.
  - intros (f & tm & Hf & Htm & <-). apply fact_rows_lookup in Hf as [k Hk].
    rewrite Hfc in Hk.
    destruct (upsert_all_last_of ∅ df k f eq_refl Hk) as (o & Ho & _ & ->).
    exists o. split; [done|]. simpl in Htm. apply Htk in Htm. rewrite Htm.
    rewrite <- (time_row_key rows df o Hp (last_of_session_elem _ _ Ho)).
    apply date_time_row.
  - intros (o & Ho & ->). exists (fact_of o).
    assert (Hk : date_key o ∈ dom (dim_time (db c'))).
    { rewrite Hdt, elem_of_list_to_set. apply list_elem_of_fmap_2. by apply last_of_session_elem. }
    apply elem_of_dom in Hk as [tm Htm]. exists tm. split; [|split; [exact Htm|]].
    + apply fact_rows_lookup. exists (session_id o). rewrite Hfc. by apply upsert_all_last.
    + apply Htk in Htm. rewrite Htm.
      rewrite <- (time_row_key rows df o Hp (last_of_session_elem _ _ Ho)).
      apply date_time_row.
Qed.

Lemma str_append_assoc (a b c : string) :
  String.append (String.append a b) c = String.append a (String.append b c).
Proof. induction a as [|x a IH]; [reflexivity|exact (f_equal (String x) IH)]. Qed.

Lemma str_append_nil (a : string) : String.append a EmptyString = a.
Proof. induction a as [|x a IH]; [reflexivity|exact (f_equal (String x) IH)]. Qed.

(** ** Further properties: [generate_synthetic_data] *)

Section GeneratorEdges.
Context {St F : Type} (rng_seed : Z -> St) (randbelow : Z -> St -> Z * St)
        (random : St -> F * St) (energy_text : F -> Z -> string) (lt_09 : F -> bool).

(** X9. [generate_synthetic_data] with [n_sessions <= 0] writes a file
    holding only the header line and draws nothing; with at least one
    session and [n_stations < 1] it raises [ValueError] from [randint]
    before any draw, after the file has been opened with the header
    written. *)
Theorem generate_synthetic_data_edges (csv_path : string) (n_sessions n_stations seed : Z)
    (w : world St) :
  (n_sessions <= 0 ->
   generate_synthetic_data rng_seed randbelow random energy_text lt_09
     csv_path n_sessions n_stations seed w
   = (Ok tt, mk_world (rng_seed seed) (<[csv_path := csv_line header]> (files w)), [])) ∧
  (n_stations < 1 -> 1 <= n_sessions ->
   generate_synthetic_data rng_seed randbelow random energy_text lt_09
     csv_path n_sessions n_stations seed w
   = (Raise ValueError, mk_world (rng_seed seed) (<[csv_path := csv_line header]> (files w)), [])).
Proof.
  split.
  - intros Hn. unfold generate_synthetic_data.
    replace (Z.to_nat n_sessions) with 0%nat by lia. reflexivity.
  - intros Hs Hn. unfold generate_synthetic_data.
    destruct (Z.to_nat n_sessions) as [|k] eqn:E; [lia|].
    assert (B : (n_stations <? 1) = true) by (apply Z.ltb_lt; lia).
    cbn [gen_sessions]. unfold gbind at 1 2, writerow, gen_session, gbind, randint.
    cbn [g_rng g_log g_out]. rewrite B. reflexivity.
Qed.
End GeneratorEdges.

Section GeneratorFormat.
Context {St F : Type} (rng_seed : Z -> St) (randbelow : Z -> St -> Z * St)
        (random : St -> F * St) (energy_text : F -> Z -> string) (lt_09 : F -> bool).
(** [_randbelow(n)] returns a number in [0, n). *)
Hypothesis randbelow_range : ∀ n s, 0 < n -> 0 <= (randbelow n s).1 < n.

Lemma gen_session_line (n_stations sid : Z) (st : @gstate St) :
  0 < n_stations ->
  ∃ l st', gen_session randbelow random energy_text lt_09 n_stations sid st = (Ok tt, st') ∧
    g_out st' = String.append (g_out st) (gen_lines_text sid [l]) ∧
    gen_line_ok energy_text n_stations l.
Proof.
  intros Hn. unfold gen_session, gbind, randint, random_float, writerow.
  assert (E : (n_stations <? 1) = false) by (apply Z.ltb_ge; lia).
  simpl. rewrite E.
  repeat (simpl; match goal with
    | |- context [randbelow ?a ?b] =>
        let R := fresh "R" in
        pose proof (randbelow_range a b ltac:(lia)) as R;
        destruct (randbelow a b); simpl in R
    | |- context [random ?b] => destruct (random b)
    end).
  eexists (mk_gen_line _ _ _ _ _), _. split; [reflexivity|]. split.
  - simpl. rewrite str_append_nil. reflexivity.
  - unfold gen_line_ok; simpl. repeat split; try lia.
    + eexists. reflexivity.
    + case_match; [right|left]; reflexivity.
Qed.

Lemma gen_sessions_lines (n_stations : Z) (k : nat) (sid : Z) (st : @gstate St) :
  0 < n_stations ->
  ∃ ls st', gen_sessions randbelow random energy_text lt_09 n_stations k sid st = (Ok tt, st') ∧
    length ls = k ∧ Forall (gen_line_ok energy_text n_stations) ls ∧
    g_out st' = String.append (g_out st) (gen_lines_text sid ls).
Proof.
  intros Hn. revert sid st. induction k as [|k IH]; intros sid st; simpl.
  - exists [], st. split; [done|]. split; [done|]. split; [constructor|].
    by rewrite str_append_nil.
  - unfold gbind at 1.
    destruct (gen_session_line n_stations sid st Hn) as (l & st1 & E1 & O1 & Hl). rewrite E1.
    destruct (IH (sid + 1) st1) as (ls & st2 & E2 & L2 & F2 & O2). rewrite E2.
    exists (l :: ls), st2. split; [done|]. split; [simpl; lia|]. split; [by constructor|].
    rewrite O2, O1. simpl. rewrite str_append_nil, str_append_assoc. done.
Qed.

(** X10. With [n_stations >= 1] (and a [randbelow] whose draws are in
    range), the file [generate_synthetic_data] writes is the header line
    followed by [n_sessions] data lines numbered from 1, each with a station
    in [1, n_stations], a start within the 30 days from 2025-01-01 at a
    whole minute, a duration of 15 to 240 minutes, the energy text of a
    draw and a success flag of 0 or 1. *)
Theorem generate_synthetic_data_file (csv_path : string) (n_sessions n_stations seed : Z)
    (w : world St) :
  0 < n_stations ->
  ∃ ls, length ls = Z.to_nat n_sessions ∧ Forall (gen_line_ok energy_text n_stations) ls ∧
    files (generate_synthetic_data rng_seed randbelow random energy_text lt_09
             csv_path n_sessions n_stations seed w).1.2 !! csv_path
    = Some (String.append (csv_line header) (gen_lines_text 1 ls)).
Proof.
  intros Hn.
  destruct (gen_sessions_lines n_stations (Z.to_nat n_sessions) 1
              (mk_gstate (rng_seed seed) [] (String.append EmptyString (csv_line header))) Hn)
    as (ls & st & E & L & Fl & O).
  exists ls. split; [done|]. split; [done|].
  unfold generate_synthetic_data, gbind at 1. simpl. rewrite E. simpl.
  rewrite lookup_insert_eq. rewrite O. reflexivity.
Qed.
End GeneratorFormat.

Lemma generate_synthetic_data_file_witness :
  (∀ n s : Z, 0 < n -> 0 <= (s mod n, s * 7 + 3).1 < n) ∧ 0 < 5 ∧
  ∃ ls, length ls = Z.to_nat 3 ∧
    Forall (gen_line_ok (λ (_ : Z) (_ : Z), "1.5") 5) ls ∧
    files (generate_synthetic_data (λ s : Z, s) (λ n s, (s mod n, s * 7 + 3))
             (λ s, (s mod 100, s * 7 + 3)) (λ (_ : Z) (_ : Z), "1.5") (λ x, x <? 90)
             "charging_sessions.csv" 3 5 42 (mk_world 0 ∅)).1.2 !! "charging_sessions.csv"
    = Some (String.append (csv_line header) (gen_lines_text 1 ls)).
Proof.
  assert (R : ∀ n s : Z, 0 < n -> 0 <= (s mod n, s * 7 + 3).1 < n)
    by (intros n s Hn; simpl; apply Z.mod_pos_bound; lia).
  split; [exact R|]. split; [lia|].
  exact (generate_synthetic_data_file (λ s : Z, s) (λ n s, (s mod n, s * 7 + 3))
           (λ s, (s mod 100, s * 7 + 3)) (λ (_ : Z) (_ : Z), "1.5") (λ x, x <? 90) R
           "charging_sessions.csv" 3 5 42 (mk_world 0 ∅) ltac:(lia)).
Defined.

Lemma str_append_cons (c : ascii) (s t : string) :
  String.append (String c s) t = String c (String.append s t).
Proof. reflexivity. Qed.

Lemma str_length_append (s t : string) :
  String.length (String.append s t) = (String.length s + String.length t)%nat.
Proof. induction s as [|c s IH]; [reflexivity|]. rewrite str_append_cons. simpl. by rewrite IH. Qed.

Lemma length_pad (w : nat) (n : Z) : String.length (pad w n) = w.
Proof.
  revert n. induction w as [|w IH]; intros n; [reflexivity|].
  cbn [pad]. rewrite str_length_append, IH. simpl. lia.
Qed.

Lemma compare_app (s1 s2 t1 t2 : string) :
  String.length s1 = String.length s2 ->
  String.compare (String.append s1 t1) (String.append s2 t2)
  = match String.compare s1 s2 with Eq => String.compare t1 t2 | r => r end.
Proof.
  revert s2. induction s1 as [|c1 s1 IH]; intros [|c2 s2] Hl; simpl in Hl; try discriminate.
  - reflexivity.
  - rewrite !str_append_cons. cbn [String.compare].
    destruct (Ascii.compare c1 c2); [apply IH; lia|reflexivity|reflexivity].
Qed.

Lemma digit_compare (x y : Z) :
  0 <= x <= 9 -> 0 <= y <= 9 ->
  Ascii.compare (digit_char x) (digit_char y) = Z.compare x y.
Proof.
  intros Hx Hy.
  assert (Ex : x = 0 ∨ x = 1 ∨ x = 2 ∨ x = 3 ∨ x = 4 ∨ x = 5 ∨ x = 6 ∨ x = 7 ∨ x = 8 ∨ x = 9)
    by lia.
  assert (Ey : y = 0 ∨ y = 1 ∨ y = 2 ∨ y = 3 ∨ y = 4 ∨ y = 5 ∨ y = 6 ∨ y = 7 ∨ y = 8 ∨ y = 9)
    by lia.
  destruct Ex as [->|[->|[->|[->|[->|[->|[->|[->|[->| ->]]]]]]]]];
  destruct Ey as [->|[->|[->|[->|[->|[->|[->|[->|[->| ->]]]]]]]]]; reflexivity.
Qed.

Lemma compare_pad (w : nat) (a b : Z) :
  0 <= a < 10 ^ Z.of_nat w -> 0 <= b < 10 ^ Z.of_nat w ->
  String.compare (pad w a) (pad w b) = Z.compare a b.
Proof.
  revert a b. induction w as [|w IH]; intros a b Ha Hb.
  - simpl in Ha, Hb. assert (a = 0) as -> by lia. assert (b = 0) as -> by lia. reflexivity.
  - rewrite Nat2Z.inj_succ, Z.pow_succ_r in Ha, Hb by lia.
    cbn [pad]. rewrite compare_app by (by rewrite !length_pad).
    rewrite IH by (split; [apply Z.div_pos; lia|apply Z.div_lt_upper_bound; lia]).
    cbn [String.compare].
    pose proof (Z.mod_pos_bound a 10 ltac:(lia)). pose proof (Z.mod_pos_bound b 10 ltac:(lia)).
    rewrite digit_compare by lia.
    pose proof (Z.div_mod a 10 ltac:(lia)). pose proof (Z.div_mod b 10 ltac:(lia)).
    destruct (Z.compare_spec (a / 10) (b / 10)).
    + destruct (Z.compare_spec (a mod 10) (b mod 10)); symmetry.
      * apply Z.compare_eq_iff. lia.
      * apply Z.compare_lt_iff. lia.
      * apply Z.compare_gt_iff. lia.
    + symmetry. apply Z.compare_lt_iff. lia.
    + symmetry. apply Z.compare_gt_iff. lia.
Qed.

Lemma compare_dash (s t : string) :
  String.compare (String.append "-" s) (String.append "-" t) = String.compare s t.
Proof. reflexivity. Qed.

Lemma compare_iso (y1 m1 d1 y2 m2 d2 : Z) :
  0 <= y1 < 10000 -> 0 <= m1 < 100 -> 0 <= d1 < 100 ->
  0 <= y2 < 10000 -> 0 <= m2 < 100 -> 0 <= d2 < 100 ->
  String.compare (iso_date y1 m1 d1) (iso_date y2 m2 d2)
  = Z.compare (y1 * 10000 + m1 * 100 + d1) (y2 * 10000 + m2 * 100 + d2).
Proof.
  intros. unfold iso_date.
  rewrite compare_app by (by rewrite !length_pad).
  rewrite compare_pad by pow_bound. rewrite compare_dash.
  rewrite compare_app by (by rewrite !length_pad).
  rewrite compare_pad by pow_bound. rewrite compare_dash.
  rewrite compare_pad by pow_bound.
  destruct (Z.compare_spec y1 y2).
  - destruct (Z.compare_spec m1 m2).
    + destruct (Z.compare_spec d1 d2); symmetry;
        [apply Z.compare_eq_iff|apply Z.compare_lt_iff|apply Z.compare_gt_iff]; lia.
    + symmetry. apply Z.compare_lt_iff. lia.
    + symmetry. apply Z.compare_gt_iff. lia.
  - symmetry. apply Z.compare_lt_iff. lia.
  - symmetry. apply Z.compare_gt_iff. lia.
Qed.

Lemma key_split (k : Z) :
  0 <= k -> k = k / 10000 * 10000 + (k / 100) mod 100 * 100 + k mod 100.
Proof.
  intros Hk. pose proof (Z.div_mod k 100 ltac:(lia)).
  pose proof (Z.div_mod (k / 100) 100 ltac:(lia)).
  assert (E : k / 100 / 100 = k / 10000) by (rewrite Z.div_div by lia; reflexivity).
  rewrite E in *. lia.
Qed.

Lemma compare_key_dates (ka kb : Z) :
  0 <= ka < 100000000 -> 0 <= kb < 100000000 ->
  String.compare (date (key_time_row ka)) (date (key_time_row kb)) = Z.compare ka kb.
Proof.
  intros Ha Hb. unfold key_time_row. cbn [date].
  rewrite compare_iso.
  - rewrite <- !key_split by lia. reflexivity.
  - split; [apply Z.div_pos; lia|apply Z.div_lt_upper_bound; lia].
  - apply Z.mod_pos_bound. lia.
  - apply Z.mod_pos_bound. lia.
  - split; [apply Z.div_pos; lia|apply Z.div_lt_upper_bound; lia].
  - apply Z.mod_pos_bound. lia.
  - apply Z.mod_pos_bound. lia.
Qed.

Lemma sorted_dates_keys (P : Z -> Prop) (ds : list string) :
  (∀ d, d ∈ ds -> ∃ k, P k ∧ 0 <= k < 100000000 ∧ d = date (key_time_row k)) ->
  StronglySorted (λ a b, text_le a b ∧ a ≠ b) ds ->
  ∃ ks, ds = map (λ k, date (key_time_row k)) ks ∧ StronglySorted Z.lt ks ∧
        Forall (λ k, P k ∧ 0 <= k < 100000000) ks.
Proof.
  intros Hk Hs. induction Hs as [|d ds Hs IH Hd].
  - exists []. split; [done|]. split; constructor.
  - destruct (Hk d ltac:(set_solver)) as (k & Pk & Rk & ->).
    destruct IH as (ks & -> & Sks & Fks); [intros d' Hd'; apply Hk; set_solver|].
    exists (k :: ks). split; [done|]. split; [|by constructor].
    constructor; [done|].
    apply Forall_forall. intros k' Hk'.
    rewrite Forall_forall in Fks. destruct (Fks k' Hk') as [_ Rk'].
    rewrite Forall_forall in Hd.
    destruct (Hd (date (key_time_row k'))) as [Hle Hne].
    { apply list_elem_of_In, (in_map (λ k, date (key_time_row k))), list_elem_of_In. done. }
    unfold text_le, String.leb in Hle. rewrite compare_key_dates in Hle by done.
    destruct (Z.compare_spec k k'); [subst; done|lia|discriminate].
Qed.

(** X11. If every [dim_time] row is the row of the date its key encodes
    and the keys are eight-digit numbers, the dates of [compute_time_series]
    (ordered by their text) are the dates of an increasing list of keys of
    [dim_time]: the text order of ISO dates is the order of their YYYYMMDD
    keys. *)
Theorem compute_time_series_key_order (c : conn) :
  times_by_key (dim_time (db c)) ->
  map_Forall (λ k _, 0 <= k < 100000000) (dim_time (db c)) ->
  ∃ ks, map daily_date (compute_time_series c) = map (λ k, date (key_time_row k)) ks ∧
        StronglySorted Z.lt ks ∧ Forall (λ k, is_Some (dim_time (db c) !! k)) ks.
Proof.
  intros Ht Hr.
  destruct (sorted_dates_keys (λ k, is_Some (dim_time (db c) !! k))
              (map daily_date (compute_time_series c))) as (ks & E & S & Fk).
  - intros d Hd. unfold compute_time_series in Hd.
    rewrite daily_rows_keys, list_elem_of_fmap in Hd. destruct Hd as [[d' a] [-> Hp]].
    apply order_by_elem in Hp; [|apply _..]. simpl in Hp |- *.
    assert (Hs : is_Some (group_by (join_time (db c)) !! d')) by (by exists a).
    apply group_by_is_Some in Hs as [p [Hp' <-]].
    rewrite join_time_eq in Hp'. apply list_elem_of_bind in Hp' as [f [Hp' _]].
    destruct (dim_time (db c) !! time_id f) as [tm|] eqn:Etm; [|set_solver].
    assert (p = (date tm, f)) as -> by set_solver.
    exists (time_id f). split; [by exists tm|]. split; [by apply (Hr _ tm)|].
    simpl. by rewrite (Ht _ _ Etm).
  - unfold compute_time_series. rewrite daily_rows_keys. apply order_by_strict; apply _.
  - exists ks. split; [done|]. split; [done|]. eapply Forall_impl; [exact Fk|]. by intros k [? _].
Qed.

Lemma compute_time_series_key_order_witness :
  times_by_key (<[20250102 := key_time_row 20250102]>
                  (<[20241231 := key_time_row 20241231]> (∅ : gmap Z time_dim))) ∧
  map_Forall (λ k (_ : time_dim), 0 <= k < 100000000)
    (<[20250102 := key_time_row 20250102]>
       (<[20241231 := key_time_row 20241231]> (∅ : gmap Z time_dim))) ∧
  map daily_date (compute_time_series (create_database (mk_tables ∅
     (<[20250102 := key_time_row 20250102]>
        (<[20241231 := key_time_row 20241231]> (∅ : gmap Z time_dim)))
     (<[1 := mk_fact 1 20250102 10 1 1]> (<[2 := mk_fact 1 20241231 5 1 0]> ∅)))))
  = ["2024-12-31"; "2025-01-02"] ∧
  ∃ ks, map daily_date (compute_time_series (create_database (mk_tables ∅
            (<[20250102 := key_time_row 20250102]>
               (<[20241231 := key_time_row 20241231]> (∅ : gmap Z time_dim)))
            (<[1 := mk_fact 1 20250102 10 1 1]> (<[2 := mk_fact 1 20241231 5 1 0]> ∅)))))
        = map (λ k, date (key_time_row k)) ks ∧
        StronglySorted Z.lt ks ∧
        Forall (λ k, is_Some ((<[20250102 := key_time_row 20250102]>
                                 (<[20241231 := key_time_row 20241231]> (∅ : gmap Z time_dim))
                               : gmap Z time_dim) !! k)) ks.
Proof.
  assert (H1 : times_by_key (<[20250102 := key_time_row 20250102]>
                               (<[20241231 := key_time_row 20241231]> (∅ : gmap Z time_dim)))).
  { apply map_Forall_insert_2; [reflexivity|].
    apply map_Forall_insert_2; [reflexivity|apply map_Forall_empty]. }
  assert (H2 : map_Forall (λ k (_ : time_dim), 0 <= k < 100000000)
                 (<[20250102 := key_time_row 20250102]>
                    (<[20241231 := key_time_row 20241231]> (∅ : gmap Z time_dim)))).
  { apply map_Forall_insert_2; [simpl; lia|].
    apply map_Forall_insert_2; [simpl; lia|apply map_Forall_empty]. }
  split; [exact H1|]. split; [exact H2|]. split; [vm_compute; reflexivity|].
  exact (compute_time_series_key_order (create_database (mk_tables ∅
            (<[20250102 := key_time_row 20250102]>
               (<[20241231 := key_time_row 20241231]> (∅ : gmap Z time_dim)))
            (<[1 := mk_fact 1 20250102 10 1 1]> (<[2 := mk_fact 1 20241231 5 1 0]> ∅))))
           H1 H2).
Defined.

Lemma process_data_same_day_witness :
  ∃ o1 o2, process_data [mk_raw 1 1 "2025-03-07T08:15" "2025-03-07T09:40" 7%Q 1;
                         mk_raw 2 2 "2025-03-07T23:30" "2025-03-08T00:30" 5%Q 0] = Ok [o1; o2] ∧
    (date_key o1 = date_key o2 ↔ date_of (start_time o1) = date_of (start_time o2)).
Proof.
  eexists _, _. split; [vm_compute; reflexivity|].
  lazymatch goal with
  | |- (date_key ?a = date_key ?b ↔ _) =>
      apply (process_data_same_day [mk_raw 1 1 "2025-03-07T08:15" "2025-03-07T09:40" 7%Q 1;
                                    mk_raw 2 2 "2025-03-07T23:30" "2025-03-08T00:30" 5%Q 0] [a; b])
  end.
  - vm_compute. reflexivity.
  - apply list_elem_of_In. simpl. auto.
  - apply list_elem_of_In. simpl. auto.
Defined.

Lemma populate_dimensions_rows_by_key_witness :
  ∃ df, process_data [mk_raw 1 1 "2025-03-07T08:15" "2025-03-07T09:40" 7%Q 1;
                      mk_raw 2 2 "2025-03-08T10:00" "2025-03-08T11:00" 5%Q 0] = Ok df ∧
    stations_by_key (dim_station (db (populate_dimensions (create_database empty_tables) df).1)) ∧
    times_by_key (dim_time (db (populate_dimensions (create_database empty_tables) df).1)).
Proof.
  eexists. split; [vm_compute; reflexivity|].
  apply (populate_dimensions_rows_by_key _
           [mk_raw 1 1 "2025-03-07T08:15" "2025-03-07T09:40" 7%Q 1;
            mk_raw 2 2 "2025-03-08T10:00" "2025-03-08T11:00" 5%Q 0]).
  - vm_compute. reflexivity.
  - apply map_Forall_empty.
  - apply map_Forall_empty.
Defined.

Lemma populate_fact_rows_witness :
  ∃ c', populate_fact
          (mk_conn (mk_tables ∅ ∅ (<[7 := mk_fact 1 20250101 10%Q (1 # 2) 1]>
                                     (<[8 := mk_fact 2 20250101 4%Q 1 0]> ∅))) false)
          [mk_row 7 1 0 0 20%Q 1 (1 # 2) 20250101; mk_row 9 3 0 0 6%Q 0 2 20250102] = Ok c' ∧
    fact_charging (db c') = <[9 := mk_fact 3 20250102 6%Q 2 0]>
                              (<[7 := mk_fact 1 20250101 20%Q (1 # 2) 1]>
                                 (<[8 := mk_fact 2 20250101 4%Q 1 0]> ∅)) ∧
    dom (fact_charging (db c'))
    = dom (fact_charging (db (mk_conn (mk_tables ∅ ∅ (<[7 := mk_fact 1 20250101 10%Q (1 # 2) 1]>
                                     (<[8 := mk_fact 2 20250101 4%Q 1 0]> ∅))) false)))
      ∪ list_to_set (session_id <$> [mk_row 7 1 0 0 20%Q 1 (1 # 2) 20250101;
                                     mk_row 9 3 0 0 6%Q 0 2 20250102]) ∧
    (∀ k f, fact_charging (db c') !! k = Some f ->
       fact_charging (db (mk_conn (mk_tables ∅ ∅ (<[7 := mk_fact 1 20250101 10%Q (1 # 2) 1]>
                                     (<[8 := mk_fact 2 20250101 4%Q 1 0]> ∅))) false)) !! k = Some f ∨
       ∃ r, r ∈ [mk_row 7 1 0 0 20%Q 1 (1 # 2) 20250101; mk_row 9 3 0 0 6%Q 0 2 20250102] ∧
            session_id r = k ∧ f = fact_of r) ∧
    dim_station (db c') = ∅ ∧ dim_time (db c') = ∅ ∧ foreign_keys c' = false.
Proof.
  eexists. split; [reflexivity|]. split; [reflexivity|].
  apply populate_fact_rows. reflexivity.
Defined.



Lemma main_load_time_series_witness :
  ∃ df c ks,
    process_data [mk_raw 1 1 "2025-03-07T08:15" "2025-03-07T09:40" 7%Q 1;
                  mk_raw 2 2 "2025-03-08T10:00" "2025-03-08T11:00" 5%Q 0] = Ok df ∧
    main_load [mk_raw 1 1 "2025-03-07T08:15" "2025-03-07T09:40" 7%Q 1;
               mk_raw 2 2 "2025-03-08T10:00" "2025-03-08T11:00" 5%Q 0] = Ok (c, ks) ∧
    ∀ d, d ∈ map daily_date (load_time_series (db c)) ↔
         ∃ o, last_of_session o df ∧ d = day_text (start_time o).
Proof.
  eexists _, _, _. split; [vm_compute; reflexivity|]. split; [vm_compute; reflexivity|].
  eapply (main_load_time_series [mk_raw 1 1 "2025-03-07T08:15" "2025-03-07T09:40" 7%Q 1;
                                mk_raw 2 2 "2025-03-08T10:00" "2025-03-08T11:00" 5%Q 0]).
  - vm_compute. reflexivity.
  - vm_compute. reflexivity.
Defined.
